(** * Sync-context assembly of airweave: auth catalog, resource locator,
      connector factory and DAG schemas

    A shallow embedding of

    - [backend/airweave/platform/auth/settings.py]  ([IntegrationSettings]),
    - [backend/airweave/platform/locator.py]        ([ResourceLocator]),
    - [backend/app/platform/sync/context.py]        ([SyncContextFactory]),
    - [backend/app/schemas/dag.py]                  (the DAG schemas),

    followed by the properties of the specification, each stated over
    these definitions. *)

From Stdlib Require Import ZArith String List Lia.
From stdpp Require Import base option list strings pretty gmap.

Open Scope string_scope.
Set Warnings "-register-all,-clear-no-such-hyp".

(** ** Python values, exceptions and results *)

(** The values a YAML document or a decrypted credential payload holds
    ([Any] in the type hints of the source).  Floats are left out. *)
Inductive Any :=
| VNone
| VBool (b : bool)
| VInt (z : Z)
| VStr (s : string)
| VList (items : list Any)
| VDict (items : list (string * Any)).

(** [str(v)] for the scalars; the containers, which are also the values
    Python cannot hash, give [None]. *)
Definition scalar_str (v : Any) : option string :=
  match v with
  | VNone => Some "None"
  | VBool true => Some "True"
  | VBool false => Some "False"
  | VInt z => Some (pretty z)
  | VStr s => Some s
  | VList _ | VDict _ => None
  end.

Definition type_name (v : Any) : string :=
  match v with
  | VNone => "NoneType"
  | VBool _ => "bool"
  | VInt _ => "int"
  | VStr _ => "str"
  | VList _ => "list"
  | VDict _ => "dict"
  end.

(** The exceptions the embedded code raises, by class. *)
Inductive PyError :=
| ValueError (msg : string)
| KeyError (msg : string)
| TypeError (msg : string)
| AttributeError (msg : string)
| ModuleNotFoundError (name : string)
| NotFoundException (msg : string)
| ValidationError (missing : list string)
| CredentialRefreshError (msg : string).

Inductive result (A : Type) :=
| Ok (a : A)
| Raise (e : PyError).
Arguments Ok {A} a.
Arguments Raise {A} e.

Definition is_Ok {A} (r : result A) : Prop :=
  match r with Ok _ => True | Raise _ => False end.

(** A [dict[str, Any]]: keyword arguments, a decrypted payload. *)
Abbreviation Fields := (gmap string Any).

(** pydantic's check of the required fields of a model: every missing one
    is reported, in the order of declaration. *)
Definition missing_fields (required : list string) (payload : Fields) : list string :=
  filter (λ f, payload !! f = None) required.

Definition pydantic_validate (required : list string) (payload : Fields) : result Fields :=
  match missing_fields required payload with
  | [] => Ok payload
  | missing => Raise (ValidationError missing)
  end.

(** ** [airweave.platform.auth.schemas] *)

Module AuthType.

(** Modelled from the spec: the declaration of the enumeration
    [AuthType] is not among the sources; its members are the ones
    [settings.py] and [context.py] name, and the value of each member is
    its own name (the catalog tags ["oauth2_with_refresh"] and ["none"]
    of the scenarios). *)
Inductive t :=
| oauth2
| trello_auth
| api_key
| oauth2_with_refresh
| oauth2_with_refresh_rotating
| native_functionality
| config_class
| sigv4
| none.

#[global] Instance eq_dec : EqDecision t.
Proof. solve_decision. Defined.

Definition value (a : t) : string :=
  match a with
  | oauth2 => "oauth2"
  | trello_auth => "trello_auth"
  | api_key => "api_key"
  | oauth2_with_refresh => "oauth2_with_refresh"
  | oauth2_with_refresh_rotating => "oauth2_with_refresh_rotating"
  | native_functionality => "native_functionality"
  | config_class => "config_class"
  | sigv4 => "sigv4"
  | none => "none"
  end.

Definition members : list t :=
  [oauth2; trello_auth; api_key; oauth2_with_refresh;
   oauth2_with_refresh_rotating; native_functionality; config_class;
   sigv4; none].

(** The member a string is equal to ([AuthType] mixes in [str], so a
    member compares and hashes as its value). *)
Definition of_value (s : string) : option t :=
  find (λ a, bool_decide (value a = s)) members.

End AuthType.

(** The settings classes [settings.py] imports. *)
Inductive SettingsModel :=
| OAuth2Settings
| TrelloAuthSettings
| APIKeyAuthSettings
| OAuth2WithRefreshSettings
| OAuth2WithRefreshRotatingSettings
| NativeFunctionalityAuthSettings
| ConfigClassAuthSettings
| SigV4Settings.

#[global] Instance SettingsModel_eq_dec : EqDecision SettingsModel.
Proof. solve_decision. Defined.

(** An instance of a settings class: the class, the [auth_type] field of
    [BaseAuthSettings] and the keyword arguments it was built from. *)
Record BaseAuthSettings := {
  settings_model : SettingsModel;
  auth_type : AuthType.t;
  settings_fields : Fields;
}.

(** ** [airweave.platform.auth.settings] *)

(** A YAML mapping node as it stands in the file: key/value pairs in
    document order, a key possibly more than once. *)
Abbreviation MappingNode V := (list (string * V)).

(** PyYAML's [construct_mapping] assigns the pairs one after the other
    into a fresh dict and does not look for a key that is already there:
    a later pair replaces the value of an earlier one, which keeps its
    place in the iteration order. *)
Fixpoint dict_setitem {V} (d : list (string * V)) (k : string) (v : V)
  : list (string * V) :=
  match d with
  | [] => [(k, v)]
  | (k', v') :: d' =>
      if decide (k' = k) then (k', v) :: d' else (k', v') :: dict_setitem d' k v
  end.

Definition construct_mapping {V} (node : MappingNode V) : list (string * V) :=
  foldl (λ d kv, dict_setitem d kv.1 kv.2) [] node.

(** The same assignments into a dict that is only looked up, never
    iterated. *)
Definition insert_all {V} (d : gmap string V) (pairs : list (string * V))
  : gmap string V :=
  foldl (λ d kv, <[kv.1 := kv.2]> d) d pairs.

Definition construct_fields (node : MappingNode Any) : Fields :=
  insert_all ∅ node.

(** The catalog file: the node under the top-level key [integrations],
    when the key is there. *)
Record YamlDocument := {
  integrations : option (MappingNode (MappingNode Any));
}.

(** [yaml.safe_load(file).get("integrations", {})], as the list of the
    dict's items. *)
Definition safe_load_integrations (doc : YamlDocument) : list (string * Fields) :=
  match integrations doc with
  | Some node => construct_mapping (prod_map id construct_fields <$> node)
  | None => []
  end.

Section IntegrationSettings.

(** The fields each settings class requires: the classes are declared in
    [airweave.platform.auth.schemas], which is not among the sources. *)
Variable required_fields : SettingsModel → list string.

(** The dict literal [mapping] of [_parse_integration]. *)
Definition mapping (a : AuthType.t) : option SettingsModel :=
  match a with
  | AuthType.oauth2 => Some OAuth2Settings
  | AuthType.trello_auth => Some TrelloAuthSettings
  | AuthType.api_key => Some APIKeyAuthSettings
  | AuthType.oauth2_with_refresh => Some OAuth2WithRefreshSettings
  | AuthType.oauth2_with_refresh_rotating => Some OAuth2WithRefreshRotatingSettings
  | AuthType.native_functionality => Some NativeFunctionalityAuthSettings
  | AuthType.config_class => Some ConfigClassAuthSettings
  | AuthType.sigv4 => Some SigV4Settings
  | AuthType.none => None
  end.

(** [mapping.get(auth_type)] on a hashable [auth_type]: the members are
    equal to strings only. *)
Definition mapping_get (tag : Any) : option (AuthType.t * SettingsModel) :=
  match tag with
  | VStr s =>
      a ← AuthType.of_value s;
      m ← mapping a;
      Some (a, m)
  | _ => None
  end.

(** The call of the settings class on the keyword arguments [config]. *)
Definition construct_settings (a : AuthType.t) (model : SettingsModel)
    (config : Fields) : result BaseAuthSettings :=
  match pydantic_validate (required_fields model) config with
  | Ok fields =>
      Ok {| settings_model := model; auth_type := a; settings_fields := fields |}
  | Raise e => Raise e
  end.

Definition unsupported_auth_type (name tag : string) : PyError :=
  ValueError ("Unsupported auth_type for integration " ++ name ++ ": " ++ tag).

(** [mapping.get(auth_type)] hashes its argument first, which a list or a
    dict refuses with [TypeError]; the f-string of the [ValueError] shows a
    scalar as [str] does.  The class found is called only when it is true
    in a condition, which [None], the value under [AuthType.none], is
    not. *)
Definition _parse_integration (name : string) (config : Fields)
  : result BaseAuthSettings :=
  let auth_type := default (VStr "") (config !! "auth_type") in
  match scalar_str auth_type with
  | None => Raise (TypeError ("unhashable type: '" ++ type_name auth_type ++ "'"))
  | Some shown =>
      let model := mapping_get auth_type in
      let config := <["integration_short_name" := VStr name]> config in
      match model with
      | Some (a, model) => construct_settings a model config
      | None => Raise (unsupported_auth_type name shown)
      end
  end.

(** The loop of [load_settings] over [data.items()]: [self._settings] is
    updated entry by entry, and stays as it is when an entry raises. *)
Fixpoint load_items (_settings : gmap string BaseAuthSettings)
    (items : list (string * Fields))
  : gmap string BaseAuthSettings * result unit :=
  match items with
  | [] => (_settings, Ok tt)
  | (name, config) :: rest =>
      match _parse_integration name config with
      | Ok s => load_items (<[name := s]> _settings) rest
      | Raise e => (_settings, Raise e)
      end
  end.

Definition load_settings (_settings : gmap string BaseAuthSettings)
    (doc : YamlDocument) : gmap string BaseAuthSettings * result unit :=
  load_items _settings (safe_load_integrations doc).

(** [IntegrationSettings(file_path)]: the object exists only when
    [load_settings] returns. *)
Definition IntegrationSettings (doc : YamlDocument)
  : result (gmap string BaseAuthSettings) :=
  match load_settings ∅ doc with
  | (_settings, Ok _) => Ok _settings
  | (_, Raise e) => Raise e
  end.

(** An instance of a settings class is true in a condition, [None] is
    not. *)
Definition get_by_short_name (_settings : gmap string BaseAuthSettings)
    (short_name : string) : result BaseAuthSettings :=
  match _settings !! short_name with
  | Some settings => Ok settings
  | None => Raise (KeyError ("Integration settings not found for " ++ short_name))
  end.

End IntegrationSettings.

(** ** [airweave.platform.locator] *)

Definition PLATFORM_PATH : string := "airweave.platform".

(** A class or a function as [getattr(module, name)] returns it: the module
    it was found in and its name there. *)
Record ClassRef := {
  ref_module : string;
  ref_name : string;
}.

#[global] Instance ClassRef_eq_dec : EqDecision ClassRef.
Proof. solve_decision. Defined.

(** The schemas of [app.schemas] the locator and the factory read, with
    the fields they read. *)
Module Source.
Record t := {
  short_name : string;
  class_name : string;
  auth_type : AuthType.t;
  auth_config_class : option string;
}.
End Source.

Module EmbeddingModel.
Record t := {
  short_name : string;
  class_name : string;
}.
End EmbeddingModel.

Module Destination.
Record t := {
  short_name : string;
  class_name : string;
}.
End Destination.

Module Transformer.
Record t := {
  module_name : string;
  method_name : string;
}.
End Transformer.

Module EntityDefinition.
Record t := {
  module_name : string;
  class_name : string;
}.
End EntityDefinition.

Section ResourceLocator.

(** The modules [importlib] can import, each with the names it defines. *)
Variable modules : gmap string (gset string).

(** [importlib.import_module(path)] for the absolute, non-empty paths the
    locator builds, by the table of importable modules; the error carries
    the path asked for, as it does when the packages above the module
    exist. *)
Definition import_module (path : string) : result string :=
  match modules !! path with
  | Some _ => Ok path
  | None => Raise (ModuleNotFoundError path)
  end.

Definition getattr (module name : string) : result ClassRef :=
  if bool_decide (name ∈ default ∅ (modules !! module))
  then Ok {| ref_module := module; ref_name := name |}
  else Raise (AttributeError ("module '" ++ module ++ "' has no attribute '" ++ name ++ "'")).

(** [importlib.import_module(path)] followed by [getattr(module, name)]. *)
Definition locate (path name : string) : result ClassRef :=
  match import_module path with
  | Ok module => getattr module name
  | Raise e => Raise e
  end.

Definition get_embedding_model (model : EmbeddingModel.t) : result ClassRef :=
  locate (PLATFORM_PATH ++ ".embedding_models." ++ EmbeddingModel.short_name model)
         (EmbeddingModel.class_name model).

Definition get_source (source : Source.t) : result ClassRef :=
  locate (PLATFORM_PATH ++ ".sources." ++ Source.short_name source)
         (Source.class_name source).

Definition get_destination (destination : Destination.t) : result ClassRef :=
  locate (PLATFORM_PATH ++ ".destinations." ++ Destination.short_name destination)
         (Destination.class_name destination).

(** [auth_type] is [Optional[str]]; a case pattern [AuthType.sigv4] matches
    the values equal to the member, which are the member and its string. *)
Definition get_auth_config (auth_config_class : string) (auth_type : option string)
  : result ClassRef :=
  if bool_decide (auth_type = Some (AuthType.value AuthType.sigv4)) then
    locate (PLATFORM_PATH ++ ".configs.sigv4") auth_config_class
  else if bool_decide (auth_type = Some (AuthType.value AuthType.config_class)) then
    locate (PLATFORM_PATH ++ ".configs.auth") auth_config_class
  else
    locate (PLATFORM_PATH ++ ".configs.auth") auth_config_class.

Definition get_transformer (transformer : Transformer.t) : result ClassRef :=
  locate (Transformer.module_name transformer) (Transformer.method_name transformer).

Definition get_entity_definition (entity_definition : EntityDefinition.t)
  : result ClassRef :=
  locate (PLATFORM_PATH ++ ".entities." ++ EntityDefinition.module_name entity_definition)
         (EntityDefinition.class_name entity_definition).

End ResourceLocator.

(** ** [app.schemas.dag] *)

Abbreviation UUID := N.

Module DagNode.
Record t := {
  type : string;
  name : string;
  config : option Fields;
  connection_id : option UUID;
  entity_definition_id : option UUID;
  id : UUID;
  dag_id : UUID;
}.
End DagNode.

Module DagEdge.
Record t := {
  from_node_id : UUID;
  to_node_id : UUID;
  id : UUID;
  dag_id : UUID;
}.
End DagEdge.

(** [SyncDagDefinition]: the fields are declared with their types and
    nothing else; the schema has no validator. *)
Module SyncDagDefinition.
Record t := {
  name : string;
  description : option string;
  sync_id : UUID;
  id : UUID;
  nodes : list DagNode.t;
  edges : list DagEdge.t;
}.
End SyncDagDefinition.




(** ** The records of [app.schemas] the factory reads *)

Module User.
Record t := {
  organization_id : UUID;
}.
End User.

Module Connection.
Record t := {
  id : UUID;
  short_name : string;
  integration_credential_id : option UUID;
  organization_id : UUID;
}.
End Connection.

Module IntegrationCredential.
Record t := {
  encrypted_credentials : string;
  organization_id : UUID;
}.
End IntegrationCredential.

Module Sync.
Record t := {
  id : UUID;
  source_connection_id : UUID;
  destination_connection_id : option UUID;
  embedding_model_connection_id : option UUID;
}.
End Sync.

Module SyncJob.
Record t := {
  id : UUID;
}.
End SyncJob.

Module WhiteLabel.
Record t := {
  name : string;
}.
End WhiteLabel.

Module OAuth2TokenResponse.
Record t := {
  access_token : string;
  refresh_token : option string;
}.
End OAuth2TokenResponse.

(** ** The database session and the calls the factory makes *)

(** Modelled from the spec: the persistence collaborator (the [crud]
    layer, not among the sources) provides, given an id and an acting
    principal, the connection record and the encrypted credential, and the
    integration descriptor by short name; a record outside the caller's
    scope is not found. *)
Record Db := {
  connections : gmap UUID Connection.t;
  sources : gmap string Source.t;
  integration_credentials : gmap UUID IntegrationCredential.t;
  transformers : list Transformer.t;
}.

(** What a connector is constructed with. *)
Inductive CredentialArg :=
| ArgValue (v : Any)
| ArgConfig (auth_config : ClassRef) (fields : Fields).

(** The calls to the collaborators, in the order they are made. *)
Inductive Event :=
| EvDecrypt (encrypted : string)
| EvTokenRefresh (integration : string) (refresh_token : string)
| EvPersistCredential (credential_id : UUID) (encrypted : string)
| EvSourceCreate (source_class : ClassRef) (args : list CredentialArg).

Record World := {
  db : Db;
  events : list Event;
}.

(** A coroutine of the factory: it runs on the session, may change it,
    and returns or raises. *)
Definition M (A : Type) : Type := World → result A * World.

Definition ret {A} (a : A) : M A := λ w, (Ok a, w).

Definition bind {A B} (m : M A) (k : A → M B) : M B :=
  λ w, match m w with
       | (Ok a, w') => k a w'
       | (Raise e, w') => (Raise e, w')
       end.

Definition raise {A} (e : PyError) : M A := λ w, (Raise e, w).

Definition lift {A} (r : result A) : M A := λ w, (r, w).

Definition emit (ev : Event) : M unit :=
  λ w, (Ok tt, {| db := db w; events := events w ++ [ev] |}).

Definition read_db : M Db := λ w, (Ok (db w), w).

Definition write_db (d : Db) : M unit :=
  λ w, (Ok tt, {| db := d; events := events w |}).

Notation "'let!' x ':=' m 'in' k" := (bind m (λ x, k))
  (at level 10, x name, m at level 100, k at level 200,
   format "'[v' 'let!'  x  ':='  m  'in' '/' k ']'").
Notation "'do!' m 'in' k" := (bind m (λ _, k))
  (at level 10, m at level 100, k at level 200,
   format "'[v' 'do!'  m  'in' '/' k ']'").

Module crud.

Definition connection_get (id : UUID) (current_user : User.t) : M (option Connection.t) :=
  let! d := read_db in
  ret (c ← connections d !! id;
       guard (Connection.organization_id c = User.organization_id current_user);;
       Some c).

Definition source_get_by_short_name (short_name : string) : M (option Source.t) :=
  let! d := read_db in
  ret (sources d !! short_name).

Definition integration_credential_get (id : option UUID) (current_user : User.t)
  : M (option IntegrationCredential.t) :=
  let! d := read_db in
  ret (i ← id;
       c ← integration_credentials d !! i;
       guard (IntegrationCredential.organization_id c = User.organization_id current_user);;
       Some c).

Definition integration_credential_update (id : UUID) (encrypted : string) : M unit :=
  let! d := read_db in
  do! write_db {| connections := connections d;
              sources := sources d;
              integration_credentials :=
                alter (λ c, {| IntegrationCredential.encrypted_credentials := encrypted;
                               IntegrationCredential.organization_id :=
                                 IntegrationCredential.organization_id c |})
                      id (integration_credentials d);
              transformers := transformers d |} in
  emit (EvPersistCredential id encrypted).

Definition transformer_get_all : M (list Transformer.t) :=
  let! d := read_db in
  ret (transformers d).

End crud.

(** ** The collaborators of the factory *)

(** What the process holds besides the sources at hand: the importable
    modules, the fields each auth-config class of
    [airweave.platform.configs] requires, what an f-string shows for the
    [auth_type] of a source record (the value of the member or
    [AuthType.<name>], by the version of Python and the schema of the
    record), [app.core.credentials], the token endpoint of each
    integration, and the catalog [integration_settings] that [settings.py]
    builds on import. *)
Record Platform := {
  modules : gmap string (gset string);
  config_fields : ClassRef → list string;
  format_auth_type : AuthType.t → string;
  decrypt : string → Fields;
  encrypt : Fields → string;
  token_endpoint : string → string → option OAuth2TokenResponse.t;
  integration_settings : gmap string BaseAuthSettings;
}.

(** The instances the factory constructs, as the constructor calls that
    made them.  The classes are not among the sources: a call is recorded
    with its arguments and not run, and what a constructor would do with
    them, or refuse, is outside the model. *)
Record SourceInstance := {
  source_class : ClassRef;
  source_args : list CredentialArg;
}.

Inductive EmbeddingModelInstance :=
| LocalText2Vec.

Inductive DestinationInstance :=
| WeaviateDestination (sync_id : UUID) (embedding_model : EmbeddingModelInstance).

Inductive SyncProgress :=
| SyncProgress_init (job_id : UUID).

Inductive SyncDAGRouter :=
| SyncDAGRouter_init (dag : SyncDagDefinition.t).

Abbreviation EntityMap := (gmap string EntityDefinition.t).

Module SyncContext.
Record t := {
  source : SourceInstance;
  destination : DestinationInstance;
  embedding_model : EmbeddingModelInstance;
  transformers : gmap string ClassRef;
  sync : Sync.t;
  sync_job : SyncJob.t;
  dag : SyncDagDefinition.t;
  progress : SyncProgress;
  router : SyncDAGRouter;
  white_label : option WhiteLabel.t;
}.
End SyncContext.

(** The class a classmethod of the factory runs on.  [create] looks up
    [_get_entity_map] on it, a name the body of [SyncContextFactory] does
    not define (it defines [_get_entity_definition_map], which nothing
    calls); every other method is the one of the body. *)
Record FactoryClass := {
  class_name : string;
  _get_entity_map : option (Sync.t → M EntityMap);
}.

Definition SyncContextFactory : FactoryClass :=
  {| class_name := "SyncContextFactory"; _get_entity_map := None |}.

Section Factory.

Variable env : Platform.

(** [credentials.decrypt(encrypted)]. *)
Definition credentials_decrypt (encrypted : string) : M Fields :=
  do! emit (EvDecrypt encrypted) in
  ret (decrypt env encrypted).

(** [await source_class.create(...)]. *)
Definition source_class_create (source_class : ClassRef) (args : list CredentialArg)
  : M SourceInstance :=
  do! emit (EvSourceCreate source_class args) in
  ret {| source_class := source_class; source_args := args |}.

(** Modelled from the spec: [oauth2_service.refresh_access_token] is not
    among the sources.  By 4.3 and 6 it needs the connection
    ([NotFoundError("connection")]) and its credential reference
    ([NotFoundError("credential")]), calls the integration's token-refresh
    endpoint with the stored refresh token ([CredentialRefreshError] when
    the call fails) and returns the response; for [oauth2_refresh] the
    stored refresh token is reused afterward, for [oauth2_refresh_rotating]
    the newly issued one is persisted before returning.  Which of the two
    the integration is, is read from the catalog. *)
Definition refresh_access_token (integration_short_name : string)
    (current_user : User.t) (connection_id : UUID) : M OAuth2TokenResponse.t :=
  let! connection := crud.connection_get connection_id current_user in
  match connection with
  | None => raise (NotFoundException "connection")
  | Some connection =>
      let! credential :=
        crud.integration_credential_get
          (Connection.integration_credential_id connection) current_user in
      match Connection.integration_credential_id connection, credential with
      | Some credential_id, Some credential =>
          let! decrypted :=
            credentials_decrypt (IntegrationCredential.encrypted_credentials credential) in
          match decrypted !! "refresh_token" with
          | Some (VStr refresh_token) =>
              let! strategy :=
                lift (get_by_short_name (integration_settings env) integration_short_name) in
              do! emit (EvTokenRefresh integration_short_name refresh_token) in
              match token_endpoint env integration_short_name refresh_token with
              | None => raise (CredentialRefreshError integration_short_name)
              | Some response =>
                  if bool_decide (auth_type strategy = AuthType.oauth2_with_refresh_rotating)
                  then
                    match OAuth2TokenResponse.refresh_token response with
                    | Some rotated =>
                        do! crud.integration_credential_update credential_id
                              (encrypt env (<["refresh_token" := VStr rotated]> decrypted)) in
                        ret response
                    | None => raise (CredentialRefreshError integration_short_name)
                    end
                  else ret response
              end
          | _ => raise (ValidationError ["refresh_token"])
          end
      | _, _ => raise (NotFoundException "credential")
      end
  end.

(** *** [SyncContextFactory] *)

Definition _get_integration_credential (source_connection : Connection.t)
    (current_user : User.t) : M IntegrationCredential.t :=
  let! credential :=
    crud.integration_credential_get
      (Connection.integration_credential_id source_connection) current_user in
  match credential with
  | None => raise (NotFoundException "Source integration credential not found")
  | Some credential => ret credential
  end.

Definition _create_oauth2_with_refresh_source (source_model : Source.t)
    (source_class : ClassRef) (current_user : User.t)
    (source_connection : Connection.t) : M SourceInstance :=
  let! oauth2_response :=
    refresh_access_token (Source.short_name source_model) current_user
      (Connection.id source_connection) in
  source_class_create source_class
    [ArgValue (VStr (OAuth2TokenResponse.access_token oauth2_response))].

Definition _create_oauth2_source (source_class : ClassRef) (current_user : User.t)
    (source_connection : Connection.t) : M SourceInstance :=
  match Connection.integration_credential_id source_connection with
  | None => raise (NotFoundException "Source connection has no integration credential")
  | Some _ =>
      let! credential := _get_integration_credential source_connection current_user in
      let! decrypted_credential :=
        credentials_decrypt (IntegrationCredential.encrypted_credentials credential) in
      match decrypted_credential !! "access_token" with
      | None => raise (KeyError "access_token")
      | Some access_token => source_class_create source_class [ArgValue access_token]
      end
  end.

(** [auth_config.model_validate(decrypted_credential)]. *)
Definition model_validate (auth_config : ClassRef) (payload : Fields)
  : result CredentialArg :=
  match pydantic_validate (config_fields env auth_config) payload with
  | Ok fields => Ok (ArgConfig auth_config fields)
  | Raise e => Raise e
  end.

Definition _create_other_auth_source (source_model : Source.t)
    (source_class : ClassRef) (current_user : User.t)
    (source_connection : Connection.t) : M SourceInstance :=
  match Connection.integration_credential_id source_connection with
  | None => raise (NotFoundException "Source connection has no integration credential")
  | Some _ =>
      let! credential := _get_integration_credential source_connection current_user in
      let! decrypted_credential :=
        credentials_decrypt (IntegrationCredential.encrypted_credentials credential) in
      match Source.auth_config_class source_model with
      | None | Some "" =>
          raise (ValueError ("Auth config class required for auth type "
                             ++ format_auth_type env (Source.auth_type source_model)))
      | Some auth_config_class =>
          let! auth_config := lift (get_auth_config (modules env) auth_config_class None) in
          let! source_credentials := lift (model_validate auth_config decrypted_credential) in
          source_class_create source_class [source_credentials]
      end
  end.

Definition _create_source_instance (sync : Sync.t) (current_user : User.t)
  : M SourceInstance :=
  let! source_connection :=
    crud.connection_get (Sync.source_connection_id sync) current_user in
  match source_connection with
  | None => raise (NotFoundException "Source connection not found")
  | Some source_connection =>
      let! source_model :=
        crud.source_get_by_short_name (Connection.short_name source_connection) in
      match source_model with
      | None => raise (NotFoundException "Source not found")
      | Some source_model =>
          let! source_class := lift (get_source (modules env) source_model) in
          if bool_decide (Source.auth_type source_model = AuthType.none) then
            source_class_create source_class []
          else if bool_decide (Source.auth_type source_model
                                 ∈ [AuthType.oauth2_with_refresh;
                                    AuthType.oauth2_with_refresh_rotating]) then
            _create_oauth2_with_refresh_source source_model source_class
              current_user source_connection
          else if bool_decide (Source.auth_type source_model = AuthType.oauth2) then
            _create_oauth2_source source_class current_user source_connection
          else
            _create_other_auth_source source_model source_class
              current_user source_connection
      end
  end.

Definition _get_embedding_model (sync : Sync.t) : EmbeddingModelInstance :=
  match Sync.embedding_model_connection_id sync with
  | None => LocalText2Vec
  | Some _ => LocalText2Vec
  end.

Definition _create_destination_instance (sync : Sync.t)
    (embedding_model : EmbeddingModelInstance) : M DestinationInstance :=
  match Sync.destination_connection_id sync with
  | None => ret (WeaviateDestination (Sync.id sync) embedding_model)
  | Some _ => ret (WeaviateDestination (Sync.id sync) embedding_model)
  end.

(** The loop of [_get_transformer_callables]. *)
Fixpoint transformer_callables (transformers : gmap string ClassRef)
    (transformer_functions : list Transformer.t) : M (gmap string ClassRef) :=
  match transformer_functions with
  | [] => ret transformers
  | transformer :: rest =>
      let! callable := lift (get_transformer (modules env) transformer) in
      transformer_callables
        (<[Transformer.method_name transformer := callable]> transformers) rest
  end.

Definition _get_transformer_callables (sync : Sync.t) : M (gmap string ClassRef) :=
  let! transformer_functions := crud.transformer_get_all in
  transformer_callables ∅ transformer_functions.

(** [cls._get_entity_map(db, sync)]. *)
Definition call_get_entity_map (cls : FactoryClass) (sync : Sync.t) : M EntityMap :=
  match _get_entity_map cls with
  | Some method => method sync
  | None =>
      raise (AttributeError ("type object '" ++ class_name cls
                             ++ "' has no attribute '_get_entity_map'"))
  end.

Definition create (cls : FactoryClass) (sync : Sync.t) (sync_job : SyncJob.t)
    (dag : SyncDagDefinition.t) (current_user : User.t)
    (white_label : option WhiteLabel.t) : M SyncContext.t :=
  let! source := _create_source_instance sync current_user in
  let embedding_model := _get_embedding_model sync in
  let! destination := _create_destination_instance sync embedding_model in
  let! transformers := _get_transformer_callables sync in
  let! entity_map := call_get_entity_map cls sync in
  let progress := SyncProgress_init (SyncJob.id sync_job) in
  let router := SyncDAGRouter_init dag in
  ret {| SyncContext.source := source;
         SyncContext.destination := destination;
         SyncContext.embedding_model := embedding_model;
         SyncContext.transformers := transformers;
         SyncContext.sync := sync;
         SyncContext.sync_job := sync_job;
         SyncContext.dag := dag;
         SyncContext.progress := progress;
         SyncContext.router := router;
         SyncContext.white_label := white_label |}.

End Factory.

(** ** Runs of the factory *)

(** The session [w] after the calls [evs] that leave the database as it
    is. *)
Definition logged (w : World) (evs : list Event) : World :=
  {| db := db w; events := events w ++ evs |}.

(** The source connection of [sync] is found in the caller's scope, stored
    under its own id, its integration is registered and its class is
    importable. *)
Definition resolves (env : Platform) (w : World) (sync : Sync.t) (current_user : User.t)
    (source_connection : Connection.t) (source_model : Source.t)
    (source_class : ClassRef) : Prop :=
  connections (db w) !! Sync.source_connection_id sync = Some source_connection
  ∧ Connection.id source_connection = Sync.source_connection_id sync
  ∧ Connection.organization_id source_connection = User.organization_id current_user
  ∧ sources (db w) !! Connection.short_name source_connection = Some source_model
  ∧ get_source (modules env) source_model = Ok source_class.

(** The credential the connection refers to is stored in the caller's
    scope. *)
Definition stored (w : World) (current_user : User.t)
    (source_connection : Connection.t) (credential : IntegrationCredential.t) : Prop :=
  ∃ id,
    Connection.integration_credential_id source_connection = Some id
    ∧ integration_credentials (db w) !! id = Some credential
    ∧ IntegrationCredential.organization_id credential
      = User.organization_id current_user.

(** ** Concrete catalogs, sessions and DAGs

    The scenarios of the specification, used below to run the
    definitions. *)

Module Scenario.

Definition required_fields (model : SettingsModel) : list string :=
  match model with
  | OAuth2Settings | OAuth2WithRefreshSettings | OAuth2WithRefreshRotatingSettings =>
      ["integration_short_name"; "url"; "client_id"; "client_secret"]
  | _ => ["integration_short_name"]
  end.

Definition oauth_entry (tag : string) : MappingNode Any :=
  [("auth_type", VStr tag); ("url", VStr "https://api.hubapi.com/oauth/v1/token");
   ("client_id", VStr "client"); ("client_secret", VStr "secret")].

(** Scenario A: [hubspot] with [oauth2_with_refresh]. *)
Definition catalog_hubspot : YamlDocument :=
  {| integrations := Some [("hubspot", oauth_entry "oauth2_with_refresh")] |}.

(** Scenario B: [local_files] with [none]. *)
Definition catalog_local_files : YamlDocument :=
  {| integrations := Some [("local_files", [("auth_type", VStr "none")])] |}.

(** A catalog that names [hubspot] twice. *)
Definition catalog_duplicate : YamlDocument :=
  {| integrations :=
       Some [("hubspot", oauth_entry "oauth2_with_refresh");
             ("stripe", [("auth_type", VStr "api_key")]);
             ("hubspot", [("auth_type", VStr "api_key")])] |}.

(** A catalog with a tag no member of [AuthType] is equal to. *)
Definition catalog_unknown : YamlDocument :=
  {| integrations :=
       Some [("hubspot", oauth_entry "oauth2_with_refresh");
             ("acme", [("auth_type", VStr "kerberos")])] |}.

Definition hubspot_settings : BaseAuthSettings :=
  {| settings_model := OAuth2WithRefreshSettings;
     auth_type := AuthType.oauth2_with_refresh;
     settings_fields :=
       <["integration_short_name" := VStr "hubspot"]>
         (construct_fields (oauth_entry "oauth2_with_refresh")) |}.

Definition source (short_name class_name : string) (auth_type : AuthType.t)
    (auth_config_class : option string) : Source.t :=
  {| Source.short_name := short_name; Source.class_name := class_name;
     Source.auth_type := auth_type; Source.auth_config_class := auth_config_class |}.

Definition connection (id : UUID) (short_name : string) (credential : option UUID)
  : Connection.t :=
  {| Connection.id := id; Connection.short_name := short_name;
     Connection.integration_credential_id := credential;
     Connection.organization_id := 1%N |}.

Definition credential (encrypted : string) : IntegrationCredential.t :=
  {| IntegrationCredential.encrypted_credentials := encrypted;
     IntegrationCredential.organization_id := 1%N |}.

Definition session : Db :=
  {| connections :=
       list_to_map
         [(1%N, connection 1 "hubspot" (Some 10%N));
          (2%N, connection 2 "local_files" None);
          (3%N, connection 3 "gmail" (Some 11%N));
          (4%N, connection 4 "s3" (Some 12%N));
          (5%N, connection 5 "gmail" None);
          (6%N, connection 6 "gmail" (Some 13%N));
          (7%N, connection 7 "stripe" (Some 13%N))];
     sources :=
       list_to_map
         [("hubspot", source "hubspot" "HubspotSource" AuthType.oauth2_with_refresh None);
          ("local_files", source "local_files" "LocalFilesSource" AuthType.none None);
          ("gmail", source "gmail" "GmailSource" AuthType.oauth2 None);
          ("s3", source "s3" "S3Source" AuthType.sigv4 (Some "S3AuthConfig"));
          ("stripe", source "stripe" "StripeSource" AuthType.config_class
                       (Some "StripeAuthConfig"))];
     integration_credentials :=
       list_to_map
         [(10%N, credential "enc:hubspot"); (11%N, credential "enc:gmail");
          (12%N, credential "enc:s3"); (13%N, credential "enc:empty")];
     transformers :=
       [{| Transformer.module_name := "airweave.platform.transformers.chunker";
           Transformer.method_name := "chunk" |}] |}.

Definition platform : Platform :=
  {| modules :=
       list_to_map
         [("airweave.platform.sources.hubspot", {["HubspotSource"]});
          ("airweave.platform.sources.local_files", {["LocalFilesSource"]});
          ("airweave.platform.sources.gmail", {["GmailSource"]});
          ("airweave.platform.sources.s3", {["S3Source"]});
          ("airweave.platform.sources.stripe", {["StripeSource"]});
          ("airweave.platform.configs.auth", {["StripeAuthConfig"; "S3AuthConfig"]});
          ("airweave.platform.configs.sigv4", {["S3AuthConfig"]});
          ("airweave.platform.transformers.chunker", {["chunk"]})];
     config_fields := λ auth_config,
       if bool_decide (ref_name auth_config = "StripeAuthConfig") then ["api_key"]
       else ["access_key_id"; "secret_access_key"];
     format_auth_type := λ a, "AuthType." ++ AuthType.value a;
     decrypt := λ encrypted,
       if bool_decide (encrypted = "enc:hubspot") then
         {["access_token" := VStr "at-stale"; "refresh_token" := VStr "rt-1"]}
       else if bool_decide (encrypted = "enc:gmail") then
         {["access_token" := VStr "at-gmail"]}
       else if bool_decide (encrypted = "enc:s3") then
         {["access_key_id" := VStr "AKIA"; "secret_access_key" := VStr "s3cr3t"]}
       else ∅;
     encrypt := λ _, "enc:rotated";
     token_endpoint := λ integration refresh_token,
       if bool_decide (integration = "hubspot" ∧ refresh_token = "rt-1") then
         Some {| OAuth2TokenResponse.access_token := "at-fresh";
                 OAuth2TokenResponse.refresh_token := None |}
       else None;
     integration_settings := {["hubspot" := hubspot_settings]} |}.

Definition user : User.t := {| User.organization_id := 1%N |}.

Definition sync (source_connection : UUID) : Sync.t :=
  {| Sync.id := 100%N; Sync.source_connection_id := source_connection;
     Sync.destination_connection_id := None;
     Sync.embedding_model_connection_id := None |}.

Definition sync_job : SyncJob.t := {| SyncJob.id := 200%N |}.

Definition start : World := {| db := session; events := [] |}.

Definition node (id : UUID) (type name : string) (connection : option UUID) : DagNode.t :=
  {| DagNode.type := type; DagNode.name := name; DagNode.config := None;
     DagNode.connection_id := connection; DagNode.entity_definition_id := None;
     DagNode.id := id; DagNode.dag_id := 300%N |}.

Definition edge (id from to : UUID) : DagEdge.t :=
  {| DagEdge.from_node_id := from; DagEdge.to_node_id := to;
     DagEdge.id := id; DagEdge.dag_id := 300%N |}.

Definition dag_of (edges : list DagEdge.t) : SyncDagDefinition.t :=
  {| SyncDagDefinition.name := "pipeline"; SyncDagDefinition.description := None;
     SyncDagDefinition.sync_id := 100%N; SyncDagDefinition.id := 300%N;
     SyncDagDefinition.nodes :=
       [node 1 "source" "S" (Some 2%N); node 2 "transformer" "T" None;
        node 3 "destination" "D" (Some 9%N)];
     SyncDagDefinition.edges := edges |}.

(** Scenario C: [S → T → D]. *)
Definition dag_valid : SyncDagDefinition.t := dag_of [edge 1 1 2; edge 2 2 3].


(** A subclass of the factory that defines the method [create] calls. *)
Definition factory_with_entity_map : FactoryClass :=
  {| class_name := "EntityMapFactory"; _get_entity_map := Some (λ _, ret ∅) |}.

End Scenario.

(** ** [alembic/versions/fa3b5e05152a]: the schema the migration edits *)

Module Migration.

(** The part of a database schema the operations of the migration read and
    write: the columns of each table and the unique constraints by name,
    each with its table and columns.  An operation the database refuses
    gives [None]; rows are not modelled. *)
Record Schema := {
  columns : gmap string (gset string);
  unique_constraints : gmap string (string * list string);
}.

Definition create_unique_constraint (name table : string) (cols : list string)
    (s : Schema) : option Schema :=
  match columns s !! table, unique_constraints s !! name with
  | Some existing, None =>
      if bool_decide (Forall (λ c : string, c ∈ existing) cols)
      then Some {| columns := columns s;
                   unique_constraints := <[name := (table, cols)]> (unique_constraints s) |}
      else None
  | _, _ => None
  end.

Definition add_column (table column : string) (s : Schema) : option Schema :=
  match columns s !! table with
  | Some existing =>
      if bool_decide (column ∈ existing) then None
      else Some {| columns := <[table := {[column]} ∪ existing]> (columns s);
                   unique_constraints := unique_constraints s |}
  | None => None
  end.

Definition drop_column (table column : string) (s : Schema) : option Schema :=
  match columns s !! table with
  | Some existing =>
      if bool_decide (column ∈ existing)
      then Some {| columns := <[table := existing ∖ {[column]}]> (columns s);
                   unique_constraints := unique_constraints s |}
      else None
  | None => None
  end.

Definition drop_constraint (name table : string) (s : Schema) : option Schema :=
  match unique_constraints s !! name with
  | Some (on_table, _) =>
      if bool_decide (on_table = table)
      then Some {| columns := columns s;
                   unique_constraints := delete name (unique_constraints s) |}
      else None
  | None => None
  end.

Definition revision : string := "fa3b5e05152a".
Definition down_revision : string := "bafb02fba223".

Definition upgrade (s : Schema) : option Schema :=
  s ← create_unique_constraint "uq_sync_id_entity_id" "entity" ["sync_id"; "entity_id"] s;
  add_column "sync" "sync_metadata" s.

Definition downgrade (s : Schema) : option Schema :=
  s ← drop_column "sync" "sync_metadata" s;
  drop_constraint "uq_sync_id_entity_id" "entity" s.

End Migration.

(** ** Words for the runs of the factory *)

(** The auth types [_create_source_instance] leaves to
    [_create_other_auth_source]. *)
Definition other_auth_types : list AuthType.t :=
  [AuthType.trello_auth; AuthType.api_key; AuthType.native_functionality;
   AuthType.config_class; AuthType.sigv4].

(** The auth types the factory resolves itself, without the token-refresh
    service. *)
Definition unrefreshed_auth_types : list AuthType.t :=
  AuthType.none :: AuthType.oauth2 :: other_auth_types.

(** The outcome of a run from [w] that made at most one call to [decrypt]
    and then, exactly when it returned an instance, the one call that
    constructed this instance of [source_class]; the database is as it was
    and nothing else was called. *)
Definition decrypts_then_constructs (source_class : ClassRef) (w : World)
    (run : result SourceInstance * World) : Prop :=
  ∃ decrypts,
    (decrypts = [] ∨ ∃ encrypted, decrypts = [EvDecrypt encrypted])
    ∧ match run.1 with
      | Ok instance =>
          instance = {| source_class := source_class;
                        source_args := source_args instance |}
          ∧ run.2 = logged w (decrypts
                              ++ [EvSourceCreate source_class (source_args instance)])
      | Raise _ => run.2 = logged w decrypts
      end.

(** More sessions and catalogs to run the definitions on. *)
Module Scenario2.

(** A schema before the migration. *)
Definition schema : Migration.Schema :=
  {| Migration.columns :=
       list_to_map [("entity", {["id"; "sync_id"; "entity_id"]});
                    ("sync", {["id"; "name"]})];
     Migration.unique_constraints := ∅ |}.

(** Two transformers of one method name, in two modules. *)
Definition chunk_of (module : string) : Transformer.t :=
  {| Transformer.module_name := module; Transformer.method_name := "chunk" |}.

Definition platform : Platform :=
  {| modules :=
       <["airweave.platform.transformers.splitter" := {["chunk"]}]>
         (modules Scenario.platform);
     config_fields := config_fields Scenario.platform;
     format_auth_type := format_auth_type Scenario.platform;
     decrypt := decrypt Scenario.platform;
     encrypt := encrypt Scenario.platform;
     token_endpoint := token_endpoint Scenario.platform;
     integration_settings := integration_settings Scenario.platform |}.

(** An entry that carries a short name of its own. *)
Definition catalog_renamed : YamlDocument :=
  {| integrations :=
       Some [("stripe", [("auth_type", VStr "api_key");
                         ("integration_short_name", VStr "paypal")])] |}.

(** A catalog whose second entry has no [client_secret]. *)
Definition catalog_incomplete : YamlDocument :=
  {| integrations :=
       Some [("stripe", [("auth_type", VStr "api_key")]);
             ("hubspot", [("auth_type", VStr "oauth2"); ("url", VStr "u");
                          ("client_id", VStr "c")]);
             ("slack", [("auth_type", VStr "api_key")])] |}.

(** A source of [native_functionality] on a connection without a
    credential, and one of [api_key] without an auth-config class. *)
Definition session : Db :=
  {| connections :=
       <[8%N := Scenario.connection 8 "ctti" None]>
         (<[9%N := Scenario.connection 9 "mailchimp" (Some 11%N)]>
            (<[10%N := Scenario.connection 10 "ghost" (Some 11%N)]>
               (<[11%N := Scenario.connection 11 "gmail" (Some 99%N)]>
                  (<[12%N := Scenario.connection 12 "zendesk" None]>
                     (connections Scenario.session)))));
     sources :=
       <["ctti" := Scenario.source "ctti" "CTTISource" AuthType.native_functionality None]>
         (<["mailchimp" := Scenario.source "mailchimp" "MailchimpSource"
                             AuthType.api_key None]>
            (<["ghost" := Scenario.source "ghost" "GhostSource" AuthType.api_key None]>
               (sources Scenario.session)));
     integration_credentials := integration_credentials Scenario.session;
     transformers := transformers Scenario.session |}.

Definition modules_with_sources : Platform :=
  {| modules :=
       <["airweave.platform.sources.ctti" := {["CTTISource"]}]>
         (<["airweave.platform.sources.mailchimp" := {["MailchimpSource"]}]>
            (modules Scenario.platform));
     config_fields := config_fields Scenario.platform;
     format_auth_type := format_auth_type Scenario.platform;
     decrypt := decrypt Scenario.platform;
     encrypt := encrypt Scenario.platform;
     token_endpoint := token_endpoint Scenario.platform;
     integration_settings := integration_settings Scenario.platform |}.

Definition start : World := {| db := session; events := [] |}.

(** The session of the scenarios with other transformers registered. *)
Definition with_transformers (registered : list Transformer.t) : World :=
  {| db := {| connections := connections Scenario.session;
              sources := sources Scenario.session;
              integration_credentials := integration_credentials Scenario.session;
              transformers := registered |};
     events := [] |}.

End Scenario2.

(** * Properties *)

(** ** Dicts built by assignment *)

Lemma list_to_map_dict_setitem {V} (d : list (string * V)) (k : string) (v : V) :
  (list_to_map (dict_setitem d k v) : gmap string V) = <[k := v]> (list_to_map d).
Proof.
  induction d as [|[k' v'] d IH]; simpl; [done|].
  case_decide as Hk.
  - subst k'. simpl. by rewrite insert_insert_eq.
  - simpl. rewrite IH. by apply insert_insert_ne.
Qed.

Lemma elem_of_dict_setitem_keys {V} (d : list (string * V)) (k x : string) (v : V) :
  x ∈ (dict_setitem d k v).*1 ↔ x = k ∨ x ∈ d.*1.
Proof.
  induction d as [|[k' v'] d IH]; simpl.
  - set_solver.
  - case_decide as Hk; simpl.
    + subst k'. set_solver.
    + rewrite !elem_of_cons, IH. naive_solver.
Qed.

Lemma dict_setitem_NoDup {V} (d : list (string * V)) (k : string) (v : V) :
  NoDup d.*1 → NoDup (dict_setitem d k v).*1.
Proof.
  induction d as [|[k' v'] d IH]; simpl; intros Hd.
  - apply NoDup_singleton.
  - apply NoDup_cons in Hd as [Hk' Hd].
    case_decide as Hk; simpl.
    + by apply NoDup_cons.
    + apply NoDup_cons. split; [|by apply IH].
      rewrite elem_of_dict_setitem_keys. naive_solver.
Qed.

Lemma construct_mapping_NoDup {V} (node : MappingNode V) :
  NoDup (construct_mapping node).*1.
Proof.
  unfold construct_mapping.
  assert (∀ d : list (string * V), NoDup d.*1 →
            NoDup (foldl (λ d kv, dict_setitem d kv.1 kv.2) d node).*1) as Hgen.
  { induction node as [|[k v] node IH]; simpl; [done|].
    intros d Hd. by apply IH, dict_setitem_NoDup. }
  apply Hgen, NoDup_nil_2.
Qed.

Lemma list_to_map_construct_mapping {V} (node : MappingNode V) :
  (list_to_map (construct_mapping node) : gmap string V) = insert_all ∅ node.
Proof.
  unfold construct_mapping, insert_all.
  assert (∀ d : list (string * V),
            (list_to_map (foldl (λ d kv, dict_setitem d kv.1 kv.2) d node) : gmap string V)
            = foldl (λ d kv, <[kv.1 := kv.2]> d) (list_to_map d) node) as Hgen.
  { induction node as [|[k v] node IH]; simpl; [done|].
    intros d. by rewrite IH, list_to_map_dict_setitem. }
  apply (Hgen []).
Qed.

Lemma insert_all_app {V} (d : gmap string V) (l1 l2 : list (string * V)) :
  insert_all d (l1 ++ l2) = insert_all (insert_all d l1) l2.
Proof. apply foldl_app. Qed.

Lemma insert_all_lookup_notin {V} (d : gmap string V) (l : list (string * V)) (k : string) :
  k ∉ l.*1 → insert_all d l !! k = d !! k.
Proof.
  revert d. induction l as [|[k' v'] l IH]; simpl; intros d Hk; [done|].
  apply not_elem_of_cons in Hk as [Hne Hk].
  change (insert_all (<[k' := v']> d) l !! k = d !! k).
  rewrite IH by done. by apply lookup_insert_ne.
Qed.

(** The last pair of a key decides its value. *)
Lemma insert_all_lookup_last {V} (d : gmap string V)
    (before after : list (string * V)) (k : string) (v : V) :
  k ∉ after.*1 → insert_all d (before ++ (k, v) :: after) !! k = Some v.
Proof.
  intros Hk. rewrite insert_all_app.
  change (insert_all (<[k := v]> (insert_all d before)) after !! k = Some v).
  rewrite insert_all_lookup_notin by done. apply lookup_insert_eq.
Qed.

Lemma insert_all_union {V} (d : gmap string V) (l : list (string * V)) :
  insert_all d l = list_to_map (reverse l) ∪ d.
Proof.
  revert d. induction l as [|[k v] l IH]; intros d.
  - simpl. by rewrite (left_id_L ∅ (∪)).
  - change (insert_all (<[k := v]> d) l = list_to_map (reverse ((k, v) :: l)) ∪ d).
    rewrite IH, reverse_cons, list_to_map_app. simpl.
    rewrite insert_empty, <- (assoc_L (∪)).
    by rewrite <- insert_union_singleton_l.
Qed.

Lemma insert_all_idemp {V} (d : gmap string V) (l : list (string * V)) :
  insert_all (insert_all d l) l = insert_all d l.
Proof.
  rewrite !insert_all_union, (assoc_L (∪)). by rewrite (idemp_L (∪)).
Qed.

(** ** The catalog: [_parse_integration] and [load_settings] *)

Lemma of_value_inv (s : string) (a : AuthType.t) :
  AuthType.of_value s = Some a → s = AuthType.value a.
Proof.
  unfold AuthType.of_value. intros H.
  apply find_some in H as [_ H]. apply bool_decide_eq_true in H. done.
Qed.

Lemma of_value_value (a : AuthType.t) : AuthType.of_value (AuthType.value a) = Some a.
Proof. by destruct a. Qed.

Lemma mapping_get_inv (tag : Any) (a : AuthType.t) (model : SettingsModel) :
  mapping_get tag = Some (a, model) →
  tag = VStr (AuthType.value a) ∧ mapping a = Some model.
Proof.
  destruct tag as [| | |s| |]; simpl; try done.
  destruct (AuthType.of_value s) as [a'|] eqn:Hs; simpl; [|done].
  destruct (mapping a') as [m'|] eqn:Hm; simpl; [|done].
  intros [= -> ->]. apply of_value_inv in Hs. by subst s.
Qed.

Section Catalog.

Variable required_fields : SettingsModel → list string.

Lemma parse_integration_ok_inv (name : string) (config : Fields)
    (strategy : BaseAuthSettings) :
  _parse_integration required_fields name config = Ok strategy →
  config !! "auth_type" = Some (VStr (AuthType.value (auth_type strategy)))
  ∧ mapping (auth_type strategy) = Some (settings_model strategy).
Proof.
  unfold _parse_integration. cbv zeta.
  destruct (scalar_str _) as [shown|]; [|done].
  destruct (mapping_get _) as [[a model]|] eqn:Hget; [|done].
  apply mapping_get_inv in Hget as [Htag Hmodel].
  unfold construct_settings.
  destruct (pydantic_validate _ _) as [fields|]; [|done].
  intros [= <-]. simpl. split; [|done].
  destruct (config !! "auth_type") as [v|]; simpl in Htag.
  - by subst v.
  - injection Htag as Htag. by destruct a.
Qed.

Lemma load_items_lookup_notin (items : list (string * Fields))
    (_settings _settings' : gmap string BaseAuthSettings) (r : result unit) (k : string) :
  load_items required_fields _settings items = (_settings', r) →
  k ∉ items.*1 → _settings' !! k = _settings !! k.
Proof.
  revert _settings. induction items as [|[name config] items IH]; simpl; intros s Hload Hk.
  - by injection Hload as <- _.
  - apply not_elem_of_cons in Hk as [Hne Hk].
    destruct (_parse_integration _ _ _) as [p|e].
    + rewrite (IH _ Hload Hk). by apply lookup_insert_ne.
    + by injection Hload as <- _.
Qed.

(** After a load that returned, every item of the dict is in the catalog
    under its key, as [_parse_integration] made it. *)
Lemma load_items_lookup (items : list (string * Fields))
    (_settings _settings' : gmap string BaseAuthSettings) (k : string) (config : Fields) :
  NoDup items.*1 →
  load_items required_fields _settings items = (_settings', Ok tt) →
  (k, config) ∈ items →
  ∃ strategy, _parse_integration required_fields k config = Ok strategy
              ∧ _settings' !! k = Some strategy.
Proof.
  revert _settings. induction items as [|[name c] items IH]; simpl; intros s Hnd Hload Hin.
  - by apply elem_of_nil in Hin.
  - apply NoDup_cons in Hnd as [Hname Hnd].
    destruct (_parse_integration _ name c) as [p|e] eqn:Hp; [|done].
    apply elem_of_cons in Hin as [[= -> ->]|Hin].
    + exists p. split; [done|].
      rewrite (load_items_lookup_notin _ _ _ _ _ Hload Hname).
      apply lookup_insert_eq.
    + by apply (IH _ Hnd Hload).
Qed.

(** A load that returns has inserted the parsed entries, and would do so
    from any catalog. *)
Lemma load_items_parsed (items : list (string * Fields))
    (_settings _settings' : gmap string BaseAuthSettings) :
  load_items required_fields _settings items = (_settings', Ok tt) →
  ∃ parsed, ∀ s, load_items required_fields s items = (insert_all s parsed, Ok tt).
Proof.
  revert _settings. induction items as [|[name c] items IH]; simpl; intros s Hload.
  - by exists [].
  - destruct (_parse_integration _ name c) as [p|e]; [|done].
    destruct (IH _ Hload) as [parsed Hparsed].
    exists ((name, p) :: parsed). intros s0. apply Hparsed.
Qed.

Lemma load_items_idempotent (items : list (string * Fields))
    (_settings _settings' : gmap string BaseAuthSettings) :
  load_items required_fields _settings items = (_settings', Ok tt) →
  load_items required_fields _settings' items = (_settings', Ok tt).
Proof.
  intros Hload. destruct (load_items_parsed _ _ _ Hload) as [parsed Hparsed].
  rewrite Hparsed in Hload. injection Hload as <-.
  by rewrite Hparsed, insert_all_idemp.
Qed.

Lemma load_items_raises (items : list (string * Fields))
    (_settings : gmap string BaseAuthSettings) (k : string) (config : Fields) (e : PyError) :
  (k, config) ∈ items →
  _parse_integration required_fields k config = Raise e →
  ∃ e', (load_items required_fields _settings items).2 = Raise e'.
Proof.
  revert _settings. induction items as [|[name c] items IH]; simpl; intros s Hin Hp.
  - by apply elem_of_nil in Hin.
  - destruct (_parse_integration _ name c) as [p|e0] eqn:Hname; [|by eexists].
    apply elem_of_cons in Hin as [[= -> ->]|Hin]; [congruence|].
    by apply IH.
Qed.

Lemma load_items_first_raise (before after : list (string * Fields))
    (_settings : gmap string BaseAuthSettings) (k : string) (config : Fields) (e : PyError) :
  Forall (λ entry, is_Ok (_parse_integration required_fields entry.1 entry.2)) before →
  _parse_integration required_fields k config = Raise e →
  (load_items required_fields _settings (before ++ (k, config) :: after)).2 = Raise e.
Proof.
  revert _settings. induction before as [|[name c] before IH]; simpl; intros s Hok Hp.
  - by rewrite Hp.
  - apply Forall_cons in Hok as [Hname Hok]. simpl in Hname.
    destruct (_parse_integration _ name c) as [p|e0]; [|done].
    by apply IH.
Qed.

Lemma IntegrationSettings_Ok (doc : YamlDocument) (catalog : gmap string BaseAuthSettings) :
  IntegrationSettings required_fields doc = Ok catalog →
  load_items required_fields ∅ (safe_load_integrations doc) = (catalog, Ok tt).
Proof.
  unfold IntegrationSettings, load_settings.
  destruct (load_items _ _ _) as [s [[]|e]]; [|done]. by intros [= ->].
Qed.

Lemma safe_load_integrations_NoDup (doc : YamlDocument) :
  NoDup (safe_load_integrations doc).*1.
Proof.
  unfold safe_load_integrations. destruct (integrations doc).
  - apply construct_mapping_NoDup.
  - apply NoDup_nil_2.
Qed.

(** C4: an entry whose [auth_type] is no tag the mapping has a class for
    makes [_parse_integration] raise the error for unsupported tags, with
    the integration and the tag in its message; a load over a dict with
    such an entry raises, and raises this very error when the entries
    before it parse. *)
Theorem unsupported_auth_type_raises (name : string) (config : Fields)
    (tag : Any) (shown : string) :
  default (VStr "") (config !! "auth_type") = tag →
  scalar_str tag = Some shown →
  mapping_get tag = None →
  _parse_integration required_fields name config
  = Raise (ValueError ("Unsupported auth_type for integration " ++ name ++ ": " ++ shown))
  ∧ (∀ doc, (name, config) ∈ safe_load_integrations doc →
       ∃ e, IntegrationSettings required_fields doc = Raise e)
  ∧ (∀ _settings before after,
       Forall (λ entry, is_Ok (_parse_integration required_fields entry.1 entry.2)) before →
       (load_items required_fields _settings (before ++ (name, config) :: after)).2
       = Raise (ValueError ("Unsupported auth_type for integration "
                            ++ name ++ ": " ++ shown))).
Proof.
  intros Htag Hshown Hget.
  assert (_parse_integration required_fields name config
          = Raise (ValueError ("Unsupported auth_type for integration "
                               ++ name ++ ": " ++ shown))) as Hp.
  { unfold _parse_integration. cbv zeta. by rewrite Htag, Hshown, Hget. }
  split; [done|]. split.
  - intros doc Hin.
    destruct (load_items_raises _ ∅ _ _ _ Hin Hp) as [e He].
    exists e. unfold IntegrationSettings, load_settings.
    destruct (load_items _ _ _) as [s r]. simpl in He. by subst r.
  - intros s before after Hok. by apply load_items_first_raise.
Qed.

(** C9: after a load that returned, [get_by_short_name] gives for every
    entry of the loaded document a strategy whose tag is the entry's
    [auth_type], built from the class the mapping has for the tag; loading
    the same document again into the catalog leaves the catalog as it
    is. *)
Theorem catalog_tags_match_and_reload_is_idempotent (doc : YamlDocument)
    (catalog : gmap string BaseAuthSettings) :
  IntegrationSettings required_fields doc = Ok catalog →
  (∀ name config, (name, config) ∈ safe_load_integrations doc →
     ∃ strategy,
       get_by_short_name catalog name = Ok strategy
       ∧ config !! "auth_type" = Some (VStr (AuthType.value (auth_type strategy)))
       ∧ mapping (auth_type strategy) = Some (settings_model strategy))
  ∧ load_settings required_fields catalog doc = (catalog, Ok tt).
Proof.
  intros Hload. apply IntegrationSettings_Ok in Hload. split.
  - intros name config Hin.
    destruct (load_items_lookup _ _ _ _ _ (safe_load_integrations_NoDup doc) Hload Hin)
      as (strategy & Hp & Hlook).
    exists strategy. unfold get_by_short_name. rewrite Hlook. split; [done|].
    by apply parse_integration_ok_inv in Hp.
  - by apply load_items_idempotent in Hload.
Qed.

(** C3, as the code has it: nothing checks that a short name is new.  Of
    the entries a document has for one short name the last one stands:
    after a load that returned, the catalog holds for the name the
    strategy parsed from its last entry, whatever the earlier ones were. *)
Theorem last_entry_for_a_short_name_wins (doc : YamlDocument)
    (before after : MappingNode (MappingNode Any)) (name : string)
    (entry : MappingNode Any) (catalog : gmap string BaseAuthSettings) :
  integrations doc = Some (before ++ (name, entry) :: after)%list →
  name ∉ after.*1 →
  IntegrationSettings required_fields doc = Ok catalog →
  ∃ strategy,
    _parse_integration required_fields name (construct_fields entry) = Ok strategy
    ∧ get_by_short_name catalog name = Ok strategy.
Proof.
  intros Hdoc Hlast Hload. apply IntegrationSettings_Ok in Hload.
  assert ((name, construct_fields entry) ∈ safe_load_integrations doc) as Hin.
  { unfold safe_load_integrations. rewrite Hdoc.
    apply elem_of_list_to_map; [apply construct_mapping_NoDup|].
    rewrite list_to_map_construct_mapping, fmap_app, fmap_cons. simpl.
    apply insert_all_lookup_last.
    rewrite <- list_fmap_compose. intros Hin. apply Hlast.
    apply list_elem_of_fmap in Hin as ([k v] & -> & Hin).
    apply list_elem_of_fmap. by exists (k, v). }
  destruct (load_items_lookup _ _ _ _ _ (safe_load_integrations_NoDup doc) Hload Hin)
    as (strategy & Hp & Hlook).
  exists strategy. split; [done|]. unfold get_by_short_name. by rewrite Hlook.
Qed.

End Catalog.

Lemma unsupported_auth_type_raises_witness :
  _parse_integration Scenario.required_fields "acme" {["auth_type" := VStr "kerberos"]}
  = Raise (ValueError "Unsupported auth_type for integration acme: kerberos")
  ∧ IntegrationSettings Scenario.required_fields Scenario.catalog_unknown
    = Raise (ValueError "Unsupported auth_type for integration acme: kerberos").
Proof.
  split.
  - refine (proj1 (unsupported_auth_type_raises Scenario.required_fields
                     "acme" _ (VStr "kerberos") "kerberos" _ _ _));
      vm_compute; reflexivity.
  - vm_compute. reflexivity.
Defined.

Lemma catalog_tags_match_and_reload_is_idempotent_witness :
  load_settings Scenario.required_fields
    {["hubspot" := Scenario.hubspot_settings]} Scenario.catalog_hubspot
  = ({["hubspot" := Scenario.hubspot_settings]}, Ok tt).
Proof.
  refine (proj2 (catalog_tags_match_and_reload_is_idempotent
                   Scenario.required_fields Scenario.catalog_hubspot _ _)).
  vm_compute. reflexivity.
Defined.

(** C3, as stated, fails: a document with two entries for [hubspot] loads,
    and the catalog holds the second. *)
Lemma duplicate_short_name_is_accepted :
  ∃ catalog,
    IntegrationSettings Scenario.required_fields Scenario.catalog_duplicate = Ok catalog
    ∧ auth_type <$> catalog !! "hubspot" = Some AuthType.api_key
    ∧ settings_model <$> catalog !! "hubspot" = Some APIKeyAuthSettings.
Proof.
  eexists. repeat split; vm_compute; reflexivity.
Qed.

Lemma last_entry_for_a_short_name_wins_witness :
  ∃ strategy,
    _parse_integration Scenario.required_fields "hubspot"
      (construct_fields [("auth_type", VStr "api_key")]) = Ok strategy
    ∧ get_by_short_name
        (<["stripe" := {| settings_model := APIKeyAuthSettings;
                          auth_type := AuthType.api_key;
                          settings_fields :=
                            {["auth_type" := VStr "api_key";
                              "integration_short_name" := VStr "stripe"]} |}]>
           {["hubspot" := {| settings_model := APIKeyAuthSettings;
                             auth_type := AuthType.api_key;
                             settings_fields :=
                               {["auth_type" := VStr "api_key";
                                 "integration_short_name" := VStr "hubspot"]} |}]})
        "hubspot" = Ok strategy.
Proof.
  refine (last_entry_for_a_short_name_wins Scenario.required_fields
            Scenario.catalog_duplicate
            [("hubspot", Scenario.oauth_entry "oauth2_with_refresh");
             ("stripe", [("auth_type", VStr "api_key")])]
            [] "hubspot" [("auth_type", VStr "api_key")] _ _ _ _).
  - reflexivity.
  - simpl. apply not_elem_of_nil.
  - vm_compute. reflexivity.
Defined.

(** ** The connector factory *)

Lemma logged_nil (w : World) : logged w [] = w.
Proof. destruct w as [d evs]. unfold logged. simpl. by rewrite app_nil_r. Qed.

Lemma logged_logged (w : World) (evs1 evs2 : list Event) :
  logged (logged w evs1) evs2 = logged w (evs1 ++ evs2).
Proof. unfold logged. simpl. by rewrite <- app_assoc. Qed.

Lemma emit_run (w : World) (ev : Event) : emit ev w = (Ok tt, logged w [ev]).
Proof. reflexivity. Qed.

Lemma connection_get_found (w : World) (id : UUID) (current_user : User.t)
    (connection : Connection.t) :
  connections (db w) !! id = Some connection →
  Connection.organization_id connection = User.organization_id current_user →
  crud.connection_get id current_user w = (Ok (Some connection), w).
Proof.
  intros Hc Horg. unfold crud.connection_get, bind, read_db, ret.
  rewrite Hc. simpl. by rewrite option_guard_True.
Qed.

Lemma integration_credential_get_found (w : World) (id : UUID) (current_user : User.t)
    (credential : IntegrationCredential.t) :
  integration_credentials (db w) !! id = Some credential →
  IntegrationCredential.organization_id credential = User.organization_id current_user →
  crud.integration_credential_get (Some id) current_user w = (Ok (Some credential), w).
Proof.
  intros Hc Horg. unfold crud.integration_credential_get, bind, read_db, ret.
  simpl. rewrite Hc. simpl. by rewrite option_guard_True.
Qed.

Section FactoryFacts.

Variable env : Platform.

(** Past its three guards, [_create_source_instance] is the dispatch on
    the auth type of the source. *)
Lemma create_source_instance_dispatch (w : World) (sync : Sync.t) (current_user : User.t)
    (source_connection : Connection.t) (source_model : Source.t) (source_class : ClassRef) :
  resolves env w sync current_user source_connection source_model source_class →
  _create_source_instance env sync current_user w
  = (if bool_decide (Source.auth_type source_model = AuthType.none) then
       source_class_create source_class []
     else if bool_decide (Source.auth_type source_model
                            ∈ [AuthType.oauth2_with_refresh;
                               AuthType.oauth2_with_refresh_rotating]) then
       _create_oauth2_with_refresh_source env source_model source_class
         current_user source_connection
     else if bool_decide (Source.auth_type source_model = AuthType.oauth2) then
       _create_oauth2_source env source_class current_user source_connection
     else
       _create_other_auth_source env source_model source_class
         current_user source_connection) w.
Proof.
  intros (Hc & _ & Horg & Hs & Hcls).
  unfold _create_source_instance. unfold bind at 1.
  rewrite (connection_get_found _ _ _ _ Hc Horg).
  unfold bind at 1. unfold crud.source_get_by_short_name, bind at 1, read_db, ret.
  rewrite Hs. unfold bind, lift. by rewrite Hcls.
Qed.

Lemma get_integration_credential_stored (w : World) (current_user : User.t)
    (source_connection : Connection.t) (credential : IntegrationCredential.t) :
  stored w current_user source_connection credential →
  _get_integration_credential source_connection current_user w = (Ok credential, w).
Proof.
  intros (id & Hid & Hc & Horg).
  unfold _get_integration_credential, bind. rewrite Hid.
  by rewrite (integration_credential_get_found _ _ _ _ Hc Horg).
Qed.

Lemma create_oauth2_source_run (w : World) (source_class : ClassRef)
    (current_user : User.t) (source_connection : Connection.t)
    (credential : IntegrationCredential.t) :
  stored w current_user source_connection credential →
  let encrypted := IntegrationCredential.encrypted_credentials credential in
  _create_oauth2_source env source_class current_user source_connection w
  = match decrypt env encrypted !! "access_token" with
    | Some access_token =>
        (Ok {| source_class := source_class; source_args := [ArgValue access_token] |},
         logged w [EvDecrypt encrypted; EvSourceCreate source_class [ArgValue access_token]])
    | None => (Raise (KeyError "access_token"), logged w [EvDecrypt encrypted])
    end.
Proof.
  intros Hst encrypted. pose proof Hst as (id & Hid & _).
  unfold _create_oauth2_source. rewrite Hid. unfold bind at 1.
  rewrite (get_integration_credential_stored _ _ _ _ Hst).
  unfold credentials_decrypt, bind, ret. rewrite emit_run.
  fold encrypted. destruct (decrypt env encrypted !! "access_token"); [|done].
  unfold source_class_create, bind, ret. by rewrite emit_run, logged_logged.
Qed.

Lemma create_other_auth_source_run (w : World) (source_model : Source.t)
    (source_class : ClassRef) (current_user : User.t) (source_connection : Connection.t)
    (credential : IntegrationCredential.t) (auth_config_class : string) :
  stored w current_user source_connection credential →
  Source.auth_config_class source_model = Some auth_config_class →
  auth_config_class ≠ "" →
  let encrypted := IntegrationCredential.encrypted_credentials credential in
  _create_other_auth_source env source_model source_class current_user source_connection w
  = match locate (modules env) "airweave.platform.configs.auth" auth_config_class with
    | Ok auth_config =>
        match model_validate env auth_config (decrypt env encrypted) with
        | Ok source_credentials =>
            (Ok {| source_class := source_class; source_args := [source_credentials] |},
             logged w [EvDecrypt encrypted; EvSourceCreate source_class [source_credentials]])
        | Raise e => (Raise e, logged w [EvDecrypt encrypted])
        end
    | Raise e => (Raise e, logged w [EvDecrypt encrypted])
    end.
Proof.
  intros Hst Hcfg Hne encrypted. pose proof Hst as (id & Hid & _).
  unfold _create_other_auth_source. rewrite Hid. unfold bind at 1.
  rewrite (get_integration_credential_stored _ _ _ _ Hst).
  unfold credentials_decrypt, bind at 1, bind at 1, ret. rewrite emit_run.
  fold encrypted. rewrite Hcfg.
  destruct auth_config_class as [|c cs]; [done|].
  unfold get_auth_config. simpl bool_decide. cbv iota.
  change (PLATFORM_PATH ++ ".configs.auth") with "airweave.platform.configs.auth".
  unfold bind, lift.
  destruct (locate _ _ _) as [auth_config|e]; [|done].
  destruct (model_validate _ _ _) as [creds|e]; [|done].
  unfold source_class_create, bind, ret. by rewrite emit_run, logged_logged.
Qed.

End FactoryFacts.

Lemma parse_integration_unsupported (required_fields : SettingsModel → list string)
    (name : string) (config : Fields) (tag : Any) (shown : string) :
  default (VStr "") (config !! "auth_type") = tag →
  scalar_str tag = Some shown →
  mapping_get tag = None →
  _parse_integration required_fields name config
  = Raise (unsupported_auth_type name shown).
Proof.
  intros Htag Hshown Hget. unfold _parse_integration. cbv zeta.
  by rewrite Htag, Hshown, Hget.
Qed.

Lemma IntegrationSettings_raises (required_fields : SettingsModel → list string)
    (doc : YamlDocument) (name : string) (config : Fields) (e : PyError) :
  (name, config) ∈ safe_load_integrations doc →
  _parse_integration required_fields name config = Raise e →
  ∃ e', IntegrationSettings required_fields doc = Raise e'.
Proof.
  intros Hin Hp.
  destruct (load_items_raises required_fields _ ∅ _ _ _ Hin Hp) as [e' He'].
  exists e'. unfold IntegrationSettings, load_settings.
  destruct (load_items _ _ _) as [s r]. simpl in He'. by subst r.
Qed.

(** Decides the guards of the dispatch once the auth type is known. *)
Ltac decide_auth_type :=
  repeat match goal with
  | |- context [bool_decide ?P] =>
      let b := eval vm_compute in (bool_decide P) in
      lazymatch b with
      | true => change (bool_decide P) with true
      | false => change (bool_decide P) with false
      end
  end;
  cbv iota.

Section FactoryClaims.

Variable env : Platform.

Lemma refresh_access_token_reuses (w : World) (current_user : User.t)
    (source_connection : Connection.t) (credential : IntegrationCredential.t)
    (integration_short_name refresh_token : string) (strategy : BaseAuthSettings)
    (response : OAuth2TokenResponse.t) :
  connections (db w) !! Connection.id source_connection = Some source_connection →
  Connection.organization_id source_connection = User.organization_id current_user →
  stored w current_user source_connection credential →
  let encrypted := IntegrationCredential.encrypted_credentials credential in
  decrypt env encrypted !! "refresh_token" = Some (VStr refresh_token) →
  integration_settings env !! integration_short_name = Some strategy →
  auth_type strategy ≠ AuthType.oauth2_with_refresh_rotating →
  token_endpoint env integration_short_name refresh_token = Some response →
  refresh_access_token env integration_short_name current_user
    (Connection.id source_connection) w
  = (Ok response,
     logged w [EvDecrypt encrypted; EvTokenRefresh integration_short_name refresh_token]).
Proof.
  intros Hc Horg Hst encrypted Hrt Hcat Hrot Hend.
  pose proof Hst as (id & Hid & Hcred & Hcorg).
  unfold refresh_access_token. unfold bind at 1.
  rewrite (connection_get_found _ _ _ _ Hc Horg). unfold bind at 1.
  rewrite Hid, (integration_credential_get_found _ _ _ _ Hcred Hcorg).
  unfold credentials_decrypt, bind at 1, bind at 1, ret. rewrite emit_run.
  fold encrypted. rewrite Hrt.
  unfold bind at 1, lift, get_by_short_name. rewrite Hcat.
  unfold bind at 1. rewrite emit_run, logged_logged. rewrite Hend.
  rewrite bool_decide_eq_false_2 by done. done.
Qed.

(** C5: for [oauth2] the source is constructed with the [access_token] of
    the decrypted payload as it is stored, after one call to [decrypt] and
    none to the token endpoint, the database left as it was; a connection
    without a credential reference raises [NotFoundException] for the
    missing credential, and nothing has been called by then. *)
Theorem oauth2_source_gets_the_stored_access_token (w : World) (sync : Sync.t)
    (current_user : User.t) (source_connection : Connection.t)
    (source_model : Source.t) (source_class : ClassRef) :
  resolves env w sync current_user source_connection source_model source_class →
  Source.auth_type source_model = AuthType.oauth2 →
  (∀ credential access_token,
     stored w current_user source_connection credential →
     decrypt env (IntegrationCredential.encrypted_credentials credential)
       !! "access_token" = Some access_token →
     _create_source_instance env sync current_user w
     = (Ok {| source_class := source_class; source_args := [ArgValue access_token] |},
        logged w [EvDecrypt (IntegrationCredential.encrypted_credentials credential);
                  EvSourceCreate source_class [ArgValue access_token]]))
  ∧ (Connection.integration_credential_id source_connection = None →
     _create_source_instance env sync current_user w
     = (Raise (NotFoundException "Source connection has no integration credential"), w)).
Proof.
  intros Hres Hauth.
  rewrite (create_source_instance_dispatch env _ _ _ _ _ _ Hres), Hauth.
  decide_auth_type. split.
  - intros credential access_token Hst Htok.
    rewrite (create_oauth2_source_run env _ _ _ _ _ Hst). cbv zeta. by rewrite Htok.
  - intros Hnone. unfold _create_oauth2_source. by rewrite Hnone.
Qed.

(** C7, as the code has it: a payload without a required field makes the
    resolution raise before any source is constructed.  Under [oauth2] the
    payload is indexed, and the error is [KeyError] with the key
    [access_token]; where the payload is validated against the auth-config
    class of the integration the error is pydantic's [ValidationError]
    with the missing fields, the field in question among them. *)
Theorem missing_credential_field_raises (w : World) (sync : Sync.t)
    (current_user : User.t) (source_connection : Connection.t)
    (source_model : Source.t) (source_class : ClassRef)
    (credential : IntegrationCredential.t) :
  resolves env w sync current_user source_connection source_model source_class →
  stored w current_user source_connection credential →
  let encrypted := IntegrationCredential.encrypted_credentials credential in
  (Source.auth_type source_model = AuthType.oauth2 →
   decrypt env encrypted !! "access_token" = None →
   _create_source_instance env sync current_user w
   = (Raise (KeyError "access_token"), logged w [EvDecrypt encrypted]))
  ∧ (∀ auth_config_class auth_config field,
       Source.auth_type source_model
         ∈ [AuthType.trello_auth; AuthType.api_key; AuthType.native_functionality;
            AuthType.config_class; AuthType.sigv4] →
       Source.auth_config_class source_model = Some auth_config_class →
       auth_config_class ≠ "" →
       get_auth_config (modules env) auth_config_class None = Ok auth_config →
       field ∈ config_fields env auth_config →
       decrypt env encrypted !! field = None →
       field ∈ missing_fields (config_fields env auth_config) (decrypt env encrypted)
       ∧ _create_source_instance env sync current_user w
         = (Raise (ValidationError
                     (missing_fields (config_fields env auth_config)
                        (decrypt env encrypted))),
            logged w [EvDecrypt encrypted])).
Proof.
  intros Hres Hst encrypted.
  rewrite (create_source_instance_dispatch env _ _ _ _ _ _ Hres). split.
  - intros Hauth Hnone. rewrite Hauth. decide_auth_type.
    rewrite (create_oauth2_source_run env _ _ _ _ _ Hst). cbv zeta.
    fold encrypted. by rewrite Hnone.
  - intros auth_config_class auth_config field Hauth Hcfg Hne Hloc Hfield Hnone.
    assert (field ∈ missing_fields (config_fields env auth_config) (decrypt env encrypted))
      as Hmiss.
    { unfold missing_fields. apply list_elem_of_filter. done. }
    split; [done|].
    assert (_create_other_auth_source env source_model source_class current_user
              source_connection w
            = (Raise (ValidationError
                        (missing_fields (config_fields env auth_config)
                           (decrypt env encrypted))),
               logged w [EvDecrypt encrypted])) as Hrun.
    { rewrite (create_other_auth_source_run env _ _ _ _ _ _ _ Hst Hcfg Hne). cbv zeta.
      unfold get_auth_config in Hloc. simpl bool_decide in Hloc. cbv iota in Hloc.
      change (PLATFORM_PATH ++ ".configs.auth") with "airweave.platform.configs.auth" in Hloc.
      rewrite Hloc. fold encrypted. unfold model_validate, pydantic_validate.
      destruct (missing_fields _ _) as [|f fs] eqn:Hm; [|done].
      by apply elem_of_nil in Hmiss. }
    rewrite !elem_of_cons in Hauth.
    destruct Hauth as [H|[H|[H|[H|[H|H]]]]];
      [..|by apply elem_of_nil in H]; rewrite H; decide_auth_type; apply Hrun.
Qed.

End FactoryClaims.

(** C1, as the code has it: the mapping has no settings class for [none],
    so an entry tagged [none] makes [_parse_integration] raise the error
    for unsupported tags and the load of its document fail; the factory
    does not read the catalog for such a source and constructs it with no
    argument, without a call to [decrypt] or the token endpoint. *)
Theorem auth_type_none_is_not_loaded_and_needs_no_credential
    (required_fields : SettingsModel → list string) (env : Platform) :
  (∀ name config,
     config !! "auth_type" = Some (VStr "none") →
     _parse_integration required_fields name config
     = Raise (ValueError ("Unsupported auth_type for integration " ++ name ++ ": none"))
     ∧ ∀ doc, (name, config) ∈ safe_load_integrations doc →
         ∃ e, IntegrationSettings required_fields doc = Raise e)
  ∧ (∀ w sync current_user source_connection source_model source_class,
       resolves env w sync current_user source_connection source_model source_class →
       Source.auth_type source_model = AuthType.none →
       _create_source_instance env sync current_user w
       = (Ok {| source_class := source_class; source_args := [] |},
          logged w [EvSourceCreate source_class []])).
Proof.
  split.
  - intros name config Htag.
    assert (_parse_integration required_fields name config
            = Raise (unsupported_auth_type name "none")) as Hp.
    { apply (parse_integration_unsupported _ _ _ (VStr "none")); [|done..].
      by rewrite Htag. }
    split; [done|]. intros doc Hin. by eapply IntegrationSettings_raises.
  - intros w sync current_user source_connection source_model source_class Hres Hauth.
    rewrite (create_source_instance_dispatch env _ _ _ _ _ _ Hres), Hauth.
    decide_auth_type. reflexivity.
Qed.

(** C6: for [oauth2_with_refresh] the source is constructed with the
    access token the token endpoint returned for the stored refresh
    token; the database is as it was, and resolving again sends the same
    refresh token to the endpoint. *)
Theorem oauth2_with_refresh_source_gets_the_refreshed_token (env : Platform)
    (w : World) (sync : Sync.t) (current_user : User.t)
    (source_connection : Connection.t) (source_model : Source.t)
    (source_class : ClassRef) (credential : IntegrationCredential.t)
    (refresh_token : string) (strategy : BaseAuthSettings)
    (response : OAuth2TokenResponse.t) :
  resolves env w sync current_user source_connection source_model source_class →
  Source.auth_type source_model = AuthType.oauth2_with_refresh →
  stored w current_user source_connection credential →
  decrypt env (IntegrationCredential.encrypted_credentials credential)
    !! "refresh_token" = Some (VStr refresh_token) →
  get_by_short_name (integration_settings env) (Source.short_name source_model)
  = Ok strategy →
  auth_type strategy = AuthType.oauth2_with_refresh →
  token_endpoint env (Source.short_name source_model) refresh_token = Some response →
  let instance :=
    {| source_class := source_class;
       source_args := [ArgValue (VStr (OAuth2TokenResponse.access_token response))] |} in
  let calls :=
    [EvDecrypt (IntegrationCredential.encrypted_credentials credential);
     EvTokenRefresh (Source.short_name source_model) refresh_token;
     EvSourceCreate source_class
       [ArgValue (VStr (OAuth2TokenResponse.access_token response))]] in
  _create_source_instance env sync current_user w = (Ok instance, logged w calls)
  ∧ db (logged w calls) = db w
  ∧ _create_source_instance env sync current_user (logged w calls)
    = (Ok instance, logged w (calls ++ calls)).
Proof.
  intros Hres Hauth Hst Hrt Hcat Hstrat Hend instance calls.
  assert (∀ w', db w' = db w →
            _create_source_instance env sync current_user w' = (Ok instance, logged w' calls))
    as Hrun.
  { intros w' Hdb.
    assert (resolves env w' sync current_user source_connection source_model source_class)
      as Hres' by (unfold resolves; by rewrite Hdb).
    assert (stored w' current_user source_connection credential)
      as Hst' by (unfold stored; by rewrite Hdb).
    rewrite (create_source_instance_dispatch env _ _ _ _ _ _ Hres'), Hauth.
    decide_auth_type.
    destruct Hres' as (Hc & Hid & Horg & _).
    unfold get_by_short_name in Hcat.
    destruct (integration_settings env !! Source.short_name source_model)
      as [s|] eqn:Hlook; [|done].
    injection Hcat as ->.
    unfold _create_oauth2_with_refresh_source, bind at 1.
    rewrite (refresh_access_token_reuses env _ _ _ _ _ _ _ _
               ltac:(by rewrite Hid) Horg Hst' Hrt Hlook ltac:(by rewrite Hstrat) Hend).
    unfold source_class_create, bind, ret. by rewrite emit_run, logged_logged. }
  split; [by apply Hrun|]. split; [done|].
  rewrite (Hrun (logged w calls)) by done. by rewrite logged_logged.
Qed.

(** C8: the embedding model is [LocalText2Vec] and the destination is
    [WeaviateDestination], made from the id of the sync and the embedding
    model passed in, whether or not the sync names an embedding-model or a
    destination connection; a context [create] returns holds the
    destination made from its own embedding model. *)
Theorem embedding_model_and_destination_are_fixed (sync : Sync.t) :
  _get_embedding_model sync = LocalText2Vec
  ∧ (∀ embedding_model w,
       _create_destination_instance sync embedding_model w
       = (Ok (WeaviateDestination (Sync.id sync) embedding_model), w))
  ∧ (∀ env cls sync_job dag current_user white_label w,
       match (create env cls sync sync_job dag current_user white_label w).1 with
       | Ok ctx =>
           SyncContext.embedding_model ctx = LocalText2Vec
           ∧ SyncContext.destination ctx
             = WeaviateDestination (Sync.id sync) (SyncContext.embedding_model ctx)
       | Raise _ => True
       end).
Proof.
  assert (∀ embedding_model w,
            _create_destination_instance sync embedding_model w
            = (Ok (WeaviateDestination (Sync.id sync) embedding_model), w)) as Hdest.
  { intros embedding_model w. unfold _create_destination_instance.
    by destruct (Sync.destination_connection_id sync). }
  assert (_get_embedding_model sync = LocalText2Vec) as Hem.
  { unfold _get_embedding_model. by destruct (Sync.embedding_model_connection_id sync). }
  split; [done|]. split; [done|].
  intros env cls sync_job dag current_user white_label w.
  unfold create. unfold bind at 1.
  destruct (_create_source_instance _ _ _ _) as [[source|e] w1]; [|done].
  unfold bind at 1. rewrite Hdest.
  unfold bind at 1.
  destruct (_get_transformer_callables _ _ _) as [[transformers|e] w2]; [|done].
  unfold bind at 1.
  destruct (call_get_entity_map _ _ _) as [[entity_map|e] w3]; [|done].
  simpl. by rewrite Hem.
Qed.


(** C10: [get_auth_config] called without an auth type imports
    [configs.auth]; the module is [configs.sigv4] exactly when the auth
    type passed is [sigv4].  The factory calls it without one for every
    source it validates a credential for, a [sigv4] source included: the
    class it validates against is the one of that name in
    [configs.auth]. *)
Theorem auth_config_comes_from_the_generic_module (env : Platform) :
  (∀ auth_config_class,
     get_auth_config (modules env) auth_config_class None
     = locate (modules env) "airweave.platform.configs.auth" auth_config_class)
  ∧ (∀ auth_config_class auth_type,
       get_auth_config (modules env) auth_config_class auth_type
       = locate (modules env)
           (if bool_decide (auth_type = Some "sigv4")
            then "airweave.platform.configs.sigv4"
            else "airweave.platform.configs.auth")
           auth_config_class)
  ∧ (∀ w sync current_user source_connection source_model source_class
       credential auth_config_class,
       resolves env w sync current_user source_connection source_model source_class →
       Source.auth_type source_model
         ∈ [AuthType.trello_auth; AuthType.api_key; AuthType.native_functionality;
            AuthType.config_class; AuthType.sigv4] →
       stored w current_user source_connection credential →
       Source.auth_config_class source_model = Some auth_config_class →
       auth_config_class ≠ "" →
       let encrypted := IntegrationCredential.encrypted_credentials credential in
       _create_source_instance env sync current_user w
       = match locate (modules env) "airweave.platform.configs.auth" auth_config_class with
         | Ok auth_config =>
             match model_validate env auth_config (decrypt env encrypted) with
             | Ok source_credentials =>
                 (Ok {| source_class := source_class;
                        source_args := [source_credentials] |},
                  logged w [EvDecrypt encrypted;
                            EvSourceCreate source_class [source_credentials]])
             | Raise e => (Raise e, logged w [EvDecrypt encrypted])
             end
         | Raise e => (Raise e, logged w [EvDecrypt encrypted])
         end).
Proof.
  split; [done|]. split.
  - intros auth_config_class auth_type. unfold get_auth_config.
    change (AuthType.value AuthType.sigv4) with "sigv4".
    destruct (bool_decide (auth_type = Some "sigv4")); [done|].
    by destruct (bool_decide _).
  - intros w sync current_user source_connection source_model source_class
      credential auth_config_class Hres Hauth Hst Hcfg Hne encrypted.
    rewrite (create_source_instance_dispatch env _ _ _ _ _ _ Hres).
    pose proof (create_other_auth_source_run env _ _ source_class _ _ _ _ Hst Hcfg Hne)
      as Hrun.
    cbv zeta in Hrun. fold encrypted in Hrun.
    rewrite !elem_of_cons in Hauth.
    destruct Hauth as [H|[H|[H|[H|[H|H]]]]];
      [..|by apply elem_of_nil in H]; rewrite H; decide_auth_type; apply Hrun.
Qed.

(** ** The scenarios, run *)

Ltac scenario :=
  first
    [ reflexivity
    | discriminate
    | vm_compute; reflexivity
    | eexists; repeat split; vm_compute; reflexivity
    | repeat split; vm_compute; reflexivity
    | rewrite !elem_of_cons; tauto
    | apply (bool_decide_unpack _); vm_compute; exact I ].

(** C1, as stated, fails: the catalog of scenario B does not load. *)
Lemma catalog_entry_none_is_rejected :
  IntegrationSettings Scenario.required_fields Scenario.catalog_local_files
  = Raise (ValueError "Unsupported auth_type for integration local_files: none").
Proof. vm_compute. reflexivity. Qed.

Lemma auth_type_none_is_not_loaded_and_needs_no_credential_witness :
  _create_source_instance Scenario.platform (Scenario.sync 2) Scenario.user Scenario.start
  = (Ok {| source_class :=
             {| ref_module := "airweave.platform.sources.local_files";
                ref_name := "LocalFilesSource" |};
           source_args := [] |},
     logged Scenario.start
       [EvSourceCreate {| ref_module := "airweave.platform.sources.local_files";
                          ref_name := "LocalFilesSource" |} []]).
Proof.
  refine (proj2 (auth_type_none_is_not_loaded_and_needs_no_credential
                   Scenario.required_fields Scenario.platform)
            Scenario.start (Scenario.sync 2) Scenario.user
            (Scenario.connection 2 "local_files" None)
            (Scenario.source "local_files" "LocalFilesSource" AuthType.none None)
            _ _ _); scenario.
Defined.

Lemma oauth2_source_gets_the_stored_access_token_witness :
  _create_source_instance Scenario.platform (Scenario.sync 3) Scenario.user Scenario.start
  = (Ok {| source_class :=
             {| ref_module := "airweave.platform.sources.gmail";
                ref_name := "GmailSource" |};
           source_args := [ArgValue (VStr "at-gmail")] |},
     logged Scenario.start
       [EvDecrypt "enc:gmail";
        EvSourceCreate {| ref_module := "airweave.platform.sources.gmail";
                          ref_name := "GmailSource" |} [ArgValue (VStr "at-gmail")]])
  ∧ _create_source_instance Scenario.platform (Scenario.sync 5) Scenario.user Scenario.start
    = (Raise (NotFoundException "Source connection has no integration credential"),
       Scenario.start).
Proof.
  split.
  - refine (proj1 (oauth2_source_gets_the_stored_access_token Scenario.platform
                     Scenario.start (Scenario.sync 3) Scenario.user
                     (Scenario.connection 3 "gmail" (Some 11%N))
                     (Scenario.source "gmail" "GmailSource" AuthType.oauth2 None)
                     _ _ _)
              (Scenario.credential "enc:gmail") (VStr "at-gmail") _ _); scenario.
  - refine (proj2 (oauth2_source_gets_the_stored_access_token Scenario.platform
                     Scenario.start (Scenario.sync 5) Scenario.user
                     (Scenario.connection 5 "gmail" None)
                     (Scenario.source "gmail" "GmailSource" AuthType.oauth2 None)
                     _ _ _) _); scenario.
Defined.

Lemma oauth2_with_refresh_source_gets_the_refreshed_token_witness :
  _create_source_instance Scenario.platform (Scenario.sync 1) Scenario.user Scenario.start
  = (Ok {| source_class :=
             {| ref_module := "airweave.platform.sources.hubspot";
                ref_name := "HubspotSource" |};
           source_args := [ArgValue (VStr "at-fresh")] |},
     logged Scenario.start
       [EvDecrypt "enc:hubspot"; EvTokenRefresh "hubspot" "rt-1";
        EvSourceCreate {| ref_module := "airweave.platform.sources.hubspot";
                          ref_name := "HubspotSource" |} [ArgValue (VStr "at-fresh")]]).
Proof.
  refine (proj1 (oauth2_with_refresh_source_gets_the_refreshed_token Scenario.platform
                   Scenario.start (Scenario.sync 1) Scenario.user
                   (Scenario.connection 1 "hubspot" (Some 10%N))
                   (Scenario.source "hubspot" "HubspotSource"
                      AuthType.oauth2_with_refresh None)
                   _ (Scenario.credential "enc:hubspot") "rt-1" Scenario.hubspot_settings
                   {| OAuth2TokenResponse.access_token := "at-fresh";
                      OAuth2TokenResponse.refresh_token := None |}
                   _ _ _ _ _ _ _)); scenario.
Defined.

(** C7, as stated, fails: under [oauth2] a payload without [access_token]
    raises [KeyError], which is not the [ValidationError] the validated
    strategies raise. *)
Lemma oauth2_missing_access_token_raises_KeyError :
  _create_source_instance Scenario.platform (Scenario.sync 6) Scenario.user Scenario.start
  = (Raise (KeyError "access_token"), logged Scenario.start [EvDecrypt "enc:empty"])
  ∧ _create_source_instance Scenario.platform (Scenario.sync 7) Scenario.user Scenario.start
    = (Raise (ValidationError ["api_key"]), logged Scenario.start [EvDecrypt "enc:empty"]).
Proof. split; vm_compute; reflexivity. Qed.

Lemma missing_credential_field_raises_witness :
  _create_source_instance Scenario.platform (Scenario.sync 6) Scenario.user Scenario.start
  = (Raise (KeyError "access_token"), logged Scenario.start [EvDecrypt "enc:empty"])
  ∧ _create_source_instance Scenario.platform (Scenario.sync 7) Scenario.user Scenario.start
    = (Raise (ValidationError ["api_key"]), logged Scenario.start [EvDecrypt "enc:empty"]).
Proof.
  split.
  - refine (proj1 (missing_credential_field_raises Scenario.platform
                     Scenario.start (Scenario.sync 6) Scenario.user
                     (Scenario.connection 6 "gmail" (Some 13%N))
                     (Scenario.source "gmail" "GmailSource" AuthType.oauth2 None)
                     _ (Scenario.credential "enc:empty") _ _) _ _); scenario.
  - refine (proj2 (proj2 (missing_credential_field_raises Scenario.platform
                     Scenario.start (Scenario.sync 7) Scenario.user
                     (Scenario.connection 7 "stripe" (Some 13%N))
                     (Scenario.source "stripe" "StripeSource" AuthType.config_class
                        (Some "StripeAuthConfig"))
                     _ (Scenario.credential "enc:empty") _ _)
                    "StripeAuthConfig"
                    {| ref_module := "airweave.platform.configs.auth";
                       ref_name := "StripeAuthConfig" |} "api_key" _ _ _ _ _ _));
      scenario.
Defined.


Lemma auth_config_comes_from_the_generic_module_witness :
  _create_source_instance Scenario.platform (Scenario.sync 4) Scenario.user Scenario.start
  = (Ok {| source_class :=
             {| ref_module := "airweave.platform.sources.s3"; ref_name := "S3Source" |};
           source_args :=
             [ArgConfig {| ref_module := "airweave.platform.configs.auth";
                           ref_name := "S3AuthConfig" |}
                        (decrypt Scenario.platform "enc:s3")] |},
     logged Scenario.start
       [EvDecrypt "enc:s3";
        EvSourceCreate
          {| ref_module := "airweave.platform.sources.s3"; ref_name := "S3Source" |}
          [ArgConfig {| ref_module := "airweave.platform.configs.auth";
                        ref_name := "S3AuthConfig" |}
                     (decrypt Scenario.platform "enc:s3")]]).
Proof.
  etransitivity.
  - refine (proj2 (proj2 (auth_config_comes_from_the_generic_module Scenario.platform))
              Scenario.start (Scenario.sync 4) Scenario.user
              (Scenario.connection 4 "s3" (Some 12%N))
              (Scenario.source "s3" "S3Source" AuthType.sigv4 (Some "S3AuthConfig"))
              _ (Scenario.credential "enc:s3") "S3AuthConfig" _ _ _ _ _); scenario.
  - vm_compute. reflexivity.
Defined.

(** On a class that has [_get_entity_map], [create] returns: the context of
    scenario B over the DAG of scenario C. *)
Example create_returns_a_context :
  (create Scenario.platform Scenario.factory_with_entity_map (Scenario.sync 2)
     Scenario.sync_job Scenario.dag_valid Scenario.user None Scenario.start).1
  = Ok {| SyncContext.source :=
            {| source_class :=
                 {| ref_module := "airweave.platform.sources.local_files";
                    ref_name := "LocalFilesSource" |};
               source_args := [] |};
          SyncContext.destination := WeaviateDestination 100 LocalText2Vec;
          SyncContext.embedding_model := LocalText2Vec;
          SyncContext.transformers :=
            {["chunk" := {| ref_module := "airweave.platform.transformers.chunker";
                            ref_name := "chunk" |}]};
          SyncContext.sync := Scenario.sync 2;
          SyncContext.sync_job := Scenario.sync_job;
          SyncContext.dag := Scenario.dag_valid;
          SyncContext.progress := SyncProgress_init 200;
          SyncContext.router := SyncDAGRouter_init Scenario.dag_valid;
          SyncContext.white_label := None |}.
Proof. vm_compute. reflexivity. Qed.

(** * Further properties of the code *)

(** ** The catalog: reloads, failures and the fields of a strategy *)

Lemma elem_of_construct_mapping_keys {V} (node : MappingNode V) (k : string) :
  k ∈ (construct_mapping node).*1 ↔ k ∈ node.*1.
Proof.
  unfold construct_mapping.
  assert (∀ d : list (string * V),
            k ∈ (foldl (λ d kv, dict_setitem d kv.1 kv.2) d node).*1
            ↔ k ∈ d.*1 ∨ k ∈ node.*1) as Hgen.
  { induction node as [|[k' v'] node IH]; simpl; intros d.
    - rewrite elem_of_nil. naive_solver.
    - rewrite IH, elem_of_dict_setitem_keys, elem_of_cons. naive_solver. }
  rewrite Hgen. simpl. rewrite elem_of_nil. naive_solver.
Qed.

Lemma elem_of_safe_load_integrations_keys (doc : YamlDocument) (k : string) :
  k ∈ (safe_load_integrations doc).*1 ↔ k ∈ (default [] (integrations doc)).*1.
Proof.
  unfold safe_load_integrations. destruct (integrations doc) as [node|]; simpl; [|done].
  rewrite elem_of_construct_mapping_keys, <- list_fmap_compose.
  split; intros Hin; apply list_elem_of_fmap in Hin as ([k' v] & -> & Hin);
    apply list_elem_of_fmap; by exists (k', v).
Qed.

Lemma elem_of_keys_inv {V} (l : list (string * V)) (k : string) :
  k ∈ l.*1 → ∃ v, (k, v) ∈ l.
Proof.
  intros Hin. apply list_elem_of_fmap in Hin as ([k' v] & -> & Hin). by exists v.
Qed.

Section CatalogMore.

Variable required_fields : SettingsModel → list string.

(** A load into a catalog that is not empty is a merge: the names of the
    document get the strategy parsed from their entry, every other name
    keeps the strategy it had, so a reload never removes an integration. *)
Theorem load_settings_merges_into_the_catalog (doc : YamlDocument)
    (_settings _settings' : gmap string BaseAuthSettings) :
  load_settings required_fields _settings doc = (_settings', Ok tt) →
  ∀ name,
    (name ∈ (default [] (integrations doc)).*1 →
       ∃ config strategy,
         (name, config) ∈ safe_load_integrations doc
         ∧ _parse_integration required_fields name config = Ok strategy
         ∧ _settings' !! name = Some strategy)
    ∧ (name ∉ (default [] (integrations doc)).*1 →
       _settings' !! name = _settings !! name).
Proof.
  unfold load_settings. intros Hload name. split.
  - intros Hin. apply elem_of_safe_load_integrations_keys in Hin.
    apply elem_of_keys_inv in Hin as [config Hin].
    destruct (load_items_lookup required_fields _ _ _ _ _
                (safe_load_integrations_NoDup doc) Hload Hin) as (strategy & Hp & Hlook).
    by exists config, strategy.
  - intros Hnotin. apply (load_items_lookup_notin required_fields _ _ _ _ _ Hload).
    by rewrite elem_of_safe_load_integrations_keys.
Qed.

(** The catalog of a document that loaded answers for the short names of
    the document and for no other: any other name raises [KeyError] with
    the name in its message. *)
Theorem catalog_answers_for_the_names_of_the_document (doc : YamlDocument)
    (catalog : gmap string BaseAuthSettings) :
  IntegrationSettings required_fields doc = Ok catalog →
  ∀ short_name,
    (short_name ∈ (default [] (integrations doc)).*1 →
       is_Ok (get_by_short_name catalog short_name))
    ∧ (short_name ∉ (default [] (integrations doc)).*1 →
       get_by_short_name catalog short_name
       = Raise (KeyError ("Integration settings not found for " ++ short_name))).
Proof.
  intros Hload short_name. apply IntegrationSettings_Ok in Hload.
  unfold get_by_short_name. split.
  - intros Hin. apply elem_of_safe_load_integrations_keys in Hin.
    apply elem_of_keys_inv in Hin as [config Hin].
    destruct (load_items_lookup required_fields _ _ _ _ _
                (safe_load_integrations_NoDup doc) Hload Hin) as (strategy & _ & Hlook).
    by rewrite Hlook.
  - intros Hnotin.
    rewrite (load_items_lookup_notin required_fields _ _ _ _ short_name Hload).
    + by rewrite lookup_empty.
    + by rewrite elem_of_safe_load_integrations_keys.
Qed.

(** The loop of [load_settings] is not undone when an entry raises: the
    catalog is left as the entries before the failing one made it, and the
    entries after it are not read. *)
Theorem failed_load_keeps_the_entries_before_the_failure
    (_settings _settings1 : gmap string BaseAuthSettings)
    (before after : list (string * Fields)) (name : string) (config : Fields)
    (e : PyError) :
  load_items required_fields _settings before = (_settings1, Ok tt) →
  _parse_integration required_fields name config = Raise e →
  ∀ after',
    load_items required_fields _settings (before ++ (name, config) :: after)
    = (_settings1, Raise e)
    ∧ load_items required_fields _settings (before ++ (name, config) :: after')
      = load_items required_fields _settings (before ++ (name, config) :: after).
Proof.
  intros Hbefore Hp.
  assert (∀ rest, load_items required_fields _settings (before ++ (name, config) :: rest)
                  = (_settings1, Raise e)) as Hgen.
  { intros rest. revert _settings Hbefore.
    induction before as [|[k c] before IH]; simpl; intros s Hbefore.
    - rewrite Hp. by injection Hbefore as ->.
    - destruct (_parse_integration _ k c) as [p|e0]; [|done]. by apply IH. }
  intros after'. by rewrite !Hgen.
Qed.

(** The strategy of an entry carries the fields of the entry, with
    [integration_short_name] set to the key of the entry whatever the entry
    said, and lacks none of the fields its class requires. *)
Theorem parsed_strategy_carries_the_catalog_key (name : string) (config : Fields)
    (strategy : BaseAuthSettings) :
  _parse_integration required_fields name config = Ok strategy →
  settings_fields strategy !! "integration_short_name" = Some (VStr name)
  ∧ (∀ field, field ≠ "integration_short_name" →
       settings_fields strategy !! field = config !! field)
  ∧ missing_fields (required_fields (settings_model strategy)) (settings_fields strategy)
    = [].
Proof.
  unfold _parse_integration. cbv zeta.
  destruct (scalar_str _) as [shown|]; [|done].
  destruct (mapping_get _) as [[a model]|]; [|done].
  unfold construct_settings, pydantic_validate.
  destruct (missing_fields _ _) as [|f fs] eqn:Hmiss; [|done].
  intros [= <-]. simpl. split; [apply lookup_insert_eq|]. split; [|done].
  intros field Hne. by apply lookup_insert_ne.
Qed.

(** An entry with a tag the mapping has a class for, but without a field
    the class requires, raises pydantic's [ValidationError] with the
    required fields the entry lacks; [integration_short_name] is never
    among them. *)
Theorem incomplete_entry_raises_ValidationError (name : string) (config : Fields)
    (a : AuthType.t) (model : SettingsModel) (field : string) :
  config !! "auth_type" = Some (VStr (AuthType.value a)) →
  mapping a = Some model →
  field ∈ required_fields model →
  field ≠ "integration_short_name" →
  config !! field = None →
  ∃ missing,
    _parse_integration required_fields name config = Raise (ValidationError missing)
    ∧ field ∈ missing
    ∧ ("integration_short_name" ∉ missing)
    ∧ Forall (λ f, f ∈ required_fields model ∧ config !! f = None) missing.
Proof.
  intros Htag Hmodel Hreq Hne Hnone.
  set (fields := <["integration_short_name" := VStr name]> config).
  exists (missing_fields (required_fields model) fields).
  assert (field ∈ missing_fields (required_fields model) fields) as Hmiss.
  { apply list_elem_of_filter. split; [|done].
    unfold fields. by rewrite lookup_insert_ne. }
  split; [|split; [done|split]].
  - unfold _parse_integration. cbv zeta. rewrite Htag. simpl.
    rewrite of_value_value. simpl. rewrite Hmodel. simpl.
    unfold construct_settings, pydantic_validate. fold fields.
    destruct (missing_fields _ _) as [|f fs]; [|done]. by apply elem_of_nil in Hmiss.
  - intros Hin. apply list_elem_of_filter in Hin as [Hin _].
    unfold fields in Hin. by rewrite lookup_insert_eq in Hin.
  - apply Forall_forall. intros f Hin. apply list_elem_of_filter in Hin as [Hf Hin].
    split; [done|]. unfold fields in Hf.
    destruct (decide (f = "integration_short_name")) as [->|Hfne].
    + by rewrite lookup_insert_eq in Hf.
    + by rewrite lookup_insert_ne in Hf.
Qed.

(** An [auth_type] that is a list or a mapping is refused by the lookup in
    the mapping itself: the entry raises [TypeError], not the error for
    unsupported tags, and so does the load when the entries before it
    parse. *)
Theorem unhashable_auth_type_raises_TypeError (name : string) (config : Fields)
    (tag : Any) :
  config !! "auth_type" = Some tag →
  scalar_str tag = None →
  _parse_integration required_fields name config
  = Raise (TypeError ("unhashable type: '" ++ type_name tag ++ "'"))
  ∧ type_name tag ∈ ["list"; "dict"]
  ∧ (∀ _settings before after,
       Forall (λ entry, is_Ok (_parse_integration required_fields entry.1 entry.2)) before →
       (load_items required_fields _settings (before ++ (name, config) :: after)).2
       = Raise (TypeError ("unhashable type: '" ++ type_name tag ++ "'"))).
Proof.
  intros Htag Hscalar.
  assert (_parse_integration required_fields name config
          = Raise (TypeError ("unhashable type: '" ++ type_name tag ++ "'"))) as Hp.
  { unfold _parse_integration. cbv zeta. rewrite Htag. simpl. by rewrite Hscalar. }
  split; [done|]. split.
  - destruct tag as [|[]| | | |]; simpl in *; try done; set_solver.
  - intros s before after Hok. by apply load_items_first_raise.
Qed.

End CatalogMore.

(** ** The migration *)

(** On the schema, [downgrade] undoes [upgrade]: a schema [upgrade]
    accepts comes back as it was; the revision cannot be applied a second
    time, and [downgrade] is refused on a schema that was not upgraded. *)
Theorem downgrade_undoes_upgrade (s s' : Migration.Schema) :
  Migration.upgrade s = Some s' →
  Migration.downgrade s' = Some s
  ∧ Migration.upgrade s' = None
  ∧ Migration.downgrade s = None.
Proof.
  destruct s as [cols ucs]. unfold Migration.upgrade at 1.
  unfold Migration.create_unique_constraint. simpl.
  destruct (cols !! "entity") as [entity|] eqn:Hentity; simpl; [|done].
  destruct (ucs !! "uq_sync_id_entity_id") as [c|] eqn:Hfresh; simpl; [done|].
  case_bool_decide as Hcols; simpl; [|done].
  unfold Migration.add_column. simpl.
  destruct (cols !! "sync") as [sync|] eqn:Hsync; simpl; [|done].
  case_bool_decide as Hnew; simpl; [done|].
  intros [= <-]. split; [|split].
  - unfold Migration.downgrade, Migration.drop_column. simpl.
    rewrite lookup_insert_eq.
    rewrite bool_decide_eq_true_2 by set_solver. simpl.
    unfold Migration.drop_constraint. simpl. rewrite lookup_insert_eq.
    rewrite bool_decide_eq_true_2 by done.
    rewrite insert_insert_eq, delete_insert_eq.
    f_equal. f_equal.
    + replace (({["sync_metadata"]} ∪ sync) ∖ {["sync_metadata"]}) with sync by set_solver.
      by apply insert_id.
    + by apply delete_id.
  - unfold Migration.upgrade, Migration.create_unique_constraint. simpl.
    rewrite lookup_insert_ne by done. rewrite Hentity.
    by rewrite lookup_insert_eq.
  - unfold Migration.downgrade, Migration.drop_column. simpl.
    rewrite Hsync. by rewrite bool_decide_eq_false_2.
Qed.

Lemma downgrade_undoes_upgrade_witness :
  ∃ upgraded,
    Migration.upgrade Scenario2.schema = Some upgraded
    ∧ Migration.downgrade upgraded = Some Scenario2.schema.
Proof.
  eexists. split; [vm_compute; reflexivity|].
  refine (proj1 (downgrade_undoes_upgrade Scenario2.schema _ _)).
  vm_compute. reflexivity.
Defined.

(** ** The factory: guards, credentials and calls *)

Lemma connection_get_missing (w : World) (id : UUID) (current_user : User.t) :
  (∀ connection, connections (db w) !! id = Some connection →
     Connection.organization_id connection ≠ User.organization_id current_user) →
  crud.connection_get id current_user w = (Ok None, w).
Proof.
  intros Hscope. unfold crud.connection_get, bind, read_db, ret.
  destruct (connections (db w) !! id) as [c|]; simpl; [|done].
  by rewrite option_guard_False by by apply Hscope.
Qed.

Lemma get_integration_credential_missing (w : World) (current_user : User.t)
    (source_connection : Connection.t) (id : UUID) :
  Connection.integration_credential_id source_connection = Some id →
  (∀ credential, integration_credentials (db w) !! id = Some credential →
     IntegrationCredential.organization_id credential
     ≠ User.organization_id current_user) →
  _get_integration_credential source_connection current_user w
  = (Raise (NotFoundException "Source integration credential not found"), w).
Proof.
  intros Hid Hscope.
  unfold _get_integration_credential, bind, crud.integration_credential_get, read_db, ret.
  rewrite Hid. simpl.
  destruct (integration_credentials (db w) !! id) as [c|]; simpl; [|done].
  by rewrite option_guard_False by by apply Hscope.
Qed.

(** The credential a connection refers to is stored in the caller's scope,
    or the lookup raises; the session is as it was either way. *)
Lemma get_integration_credential_cases (w : World) (current_user : User.t)
    (source_connection : Connection.t) :
  (∃ credential,
     stored w current_user source_connection credential
     ∧ _get_integration_credential source_connection current_user w = (Ok credential, w))
  ∨ _get_integration_credential source_connection current_user w
    = (Raise (NotFoundException "Source integration credential not found"), w).
Proof.
  unfold _get_integration_credential, bind, crud.integration_credential_get, read_db, ret.
  destruct (Connection.integration_credential_id source_connection) as [id|] eqn:Hid;
    simpl; [|by right].
  destruct (integration_credentials (db w) !! id) as [c|] eqn:Hc; simpl; [|by right].
  case_guard as Horg; simpl; [|by right].
  left. exists c. split; [|done]. by exists id.
Qed.

Section FactoryMore.

Variable env : Platform.

(** The three guards of [_create_source_instance] raise before anything
    is called: a connection that is absent or outside the caller's scope,
    an integration that is not registered, and a source class the locator
    cannot find each end the run in the session it started in. *)
Theorem source_creation_fails_before_any_call (w : World) (sync : Sync.t)
    (current_user : User.t) :
  ((∀ connection,
      connections (db w) !! Sync.source_connection_id sync = Some connection →
      Connection.organization_id connection ≠ User.organization_id current_user) →
   _create_source_instance env sync current_user w
   = (Raise (NotFoundException "Source connection not found"), w))
  ∧ (∀ source_connection,
       connections (db w) !! Sync.source_connection_id sync = Some source_connection →
       Connection.organization_id source_connection
       = User.organization_id current_user →
       (sources (db w) !! Connection.short_name source_connection = None →
        _create_source_instance env sync current_user w
        = (Raise (NotFoundException "Source not found"), w))
       ∧ (∀ source_model e,
            sources (db w) !! Connection.short_name source_connection
            = Some source_model →
            get_source (modules env) source_model = Raise e →
            _create_source_instance env sync current_user w = (Raise e, w))).
Proof.
  split.
  - intros Hscope. unfold _create_source_instance, bind.
    by rewrite (connection_get_missing _ _ _ Hscope).
  - intros source_connection Hc Horg.
    pose proof (connection_get_found _ _ _ _ Hc Horg) as Hget.
    split.
    + intros Hs. unfold _create_source_instance. unfold bind at 1. rewrite Hget.
      unfold crud.source_get_by_short_name, read_db, ret, bind. by rewrite Hs.
    + intros source_model e Hs Hcls.
      unfold _create_source_instance. unfold bind at 1. rewrite Hget.
      unfold crud.source_get_by_short_name, read_db, ret, bind, lift.
      by rewrite Hs, Hcls.
Qed.

(** Every auth type but [none] and the two refresh types needs a stored
    credential, [native_functionality] included: a connection without a
    credential reference, or with a reference to a credential that is
    absent or outside the caller's scope, raises [NotFoundException]
    before anything is decrypted or constructed. *)
Theorem credential_is_required_for_every_other_auth_type (w : World) (sync : Sync.t)
    (current_user : User.t) (source_connection : Connection.t)
    (source_model : Source.t) (source_class : ClassRef) :
  resolves env w sync current_user source_connection source_model source_class →
  Source.auth_type source_model ∈ AuthType.oauth2 :: other_auth_types →
  (Connection.integration_credential_id source_connection = None →
   _create_source_instance env sync current_user w
   = (Raise (NotFoundException "Source connection has no integration credential"), w))
  ∧ (∀ id,
       Connection.integration_credential_id source_connection = Some id →
       (∀ credential, integration_credentials (db w) !! id = Some credential →
          IntegrationCredential.organization_id credential
          ≠ User.organization_id current_user) →
       _create_source_instance env sync current_user w
       = (Raise (NotFoundException "Source integration credential not found"), w)).
Proof.
  intros Hres Hauth.
  rewrite (create_source_instance_dispatch env _ _ _ _ _ _ Hres).
  unfold other_auth_types in Hauth. rewrite !elem_of_cons in Hauth.
  split.
  - intros Hnone.
    destruct Hauth as [H|[H|[H|[H|[H|[H|H]]]]]];
      [..|by apply elem_of_nil in H]; rewrite H; decide_auth_type;
      unfold _create_oauth2_source, _create_other_auth_source; by rewrite Hnone.
  - intros id Hid Hscope.
    pose proof (get_integration_credential_missing _ _ _ _ Hid Hscope) as Hget.
    destruct Hauth as [H|[H|[H|[H|[H|[H|H]]]]]];
      [..|by apply elem_of_nil in H]; rewrite H; decide_auth_type;
      unfold _create_oauth2_source, _create_other_auth_source;
      rewrite Hid; unfold bind at 1; by rewrite Hget.
Qed.

Lemma create_other_auth_source_without_class (w : World) (source_model : Source.t)
    (source_class : ClassRef) (current_user : User.t) (source_connection : Connection.t)
    (credential : IntegrationCredential.t) :
  stored w current_user source_connection credential →
  Source.auth_config_class source_model ∈ [None; Some ""] →
  _create_other_auth_source env source_model source_class current_user source_connection w
  = (Raise (ValueError ("Auth config class required for auth type "
                        ++ format_auth_type env (Source.auth_type source_model))),
     logged w [EvDecrypt (IntegrationCredential.encrypted_credentials credential)]).
Proof.
  intros Hst Hcfg. pose proof Hst as (id & Hid & _).
  unfold _create_other_auth_source. rewrite Hid. unfold bind at 1.
  rewrite (get_integration_credential_stored _ _ _ _ Hst).
  unfold credentials_decrypt, bind, ret. rewrite emit_run.
  rewrite !elem_of_cons in Hcfg.
  destruct Hcfg as [->|[->|H]]; [done..|by apply elem_of_nil in H].
Qed.

(** A source that is validated against an auth-config class and declares
    none (or the empty name) cannot be constructed: the run raises
    [ValueError] with the auth type, as the f-string shows it, in its
    message, after the credential has been decrypted. *)
Theorem auth_config_class_is_required (w : World) (sync : Sync.t)
    (current_user : User.t) (source_connection : Connection.t)
    (source_model : Source.t) (source_class : ClassRef)
    (credential : IntegrationCredential.t) :
  resolves env w sync current_user source_connection source_model source_class →
  Source.auth_type source_model ∈ other_auth_types →
  stored w current_user source_connection credential →
  Source.auth_config_class source_model ∈ [None; Some ""] →
  _create_source_instance env sync current_user w
  = (Raise (ValueError ("Auth config class required for auth type "
                        ++ format_auth_type env (Source.auth_type source_model))),
     logged w [EvDecrypt (IntegrationCredential.encrypted_credentials credential)]).
Proof.
  intros Hres Hauth Hst Hcfg.
  rewrite (create_source_instance_dispatch env _ _ _ _ _ _ Hres).
  pose proof (create_other_auth_source_without_class _ _ source_class _ _ _ Hst Hcfg)
    as Hrun.
  unfold other_auth_types in Hauth. rewrite !elem_of_cons in Hauth.
  destruct Hauth as [H|[H|[H|[H|[H|H]]]]];
    [..|by apply elem_of_nil in H]; rewrite H in *; decide_auth_type; apply Hrun.
Qed.

End FactoryMore.

Section FactoryCalls.

Variable env : Platform.

Lemma create_oauth2_source_calls (w : World) (source_class : ClassRef)
    (current_user : User.t) (source_connection : Connection.t) :
  decrypts_then_constructs source_class w
    (_create_oauth2_source env source_class current_user source_connection w).
Proof.
  destruct (Connection.integration_credential_id source_connection) as [id|] eqn:Hid.
  - destruct (get_integration_credential_cases w current_user source_connection)
      as [(credential & Hst & _)|Hget].
    + rewrite (create_oauth2_source_run env _ _ _ _ _ Hst). cbv zeta.
      exists [EvDecrypt (IntegrationCredential.encrypted_credentials credential)].
      split; [right; eexists; reflexivity|].
      destruct (decrypt env _ !! "access_token"); simpl; auto.
    + exists []. split; [by left|].
      assert (_create_oauth2_source env source_class current_user source_connection w
              = (Raise (NotFoundException "Source integration credential not found"), w))
        as ->.
      { unfold _create_oauth2_source. rewrite Hid. unfold bind. by rewrite Hget. }
      by rewrite logged_nil.
  - exists []. split; [by left|].
    assert (_create_oauth2_source env source_class current_user source_connection w
            = (Raise (NotFoundException
                        "Source connection has no integration credential"), w))
      as ->.
    { unfold _create_oauth2_source. by rewrite Hid. }
    by rewrite logged_nil.
Qed.

Lemma create_other_auth_source_calls (w : World) (source_model : Source.t)
    (source_class : ClassRef) (current_user : User.t) (source_connection : Connection.t) :
  decrypts_then_constructs source_class w
    (_create_other_auth_source env source_model source_class current_user
       source_connection w).
Proof.
  destruct (Connection.integration_credential_id source_connection) as [id|] eqn:Hid.
  - destruct (get_integration_credential_cases w current_user source_connection)
      as [(credential & Hst & _)|Hget].
    + exists [EvDecrypt (IntegrationCredential.encrypted_credentials credential)].
      split; [right; eexists; reflexivity|].
      destruct (Source.auth_config_class source_model) as [[|c cs]|] eqn:Hcfg.
      * rewrite (create_other_auth_source_without_class env _ _ _ _ _ _ Hst); [done|].
        rewrite Hcfg. set_solver.
      * rewrite (create_other_auth_source_run env _ _ _ _ _ _ _ Hst Hcfg); [|done].
        cbv zeta. destruct (locate _ _ _) as [auth_config|e]; [|done].
        destruct (model_validate _ _ _); simpl; auto.
      * rewrite (create_other_auth_source_without_class env _ _ _ _ _ _ Hst); [done|].
        rewrite Hcfg. set_solver.
    + exists []. split; [by left|].
      assert (_create_other_auth_source env source_model source_class current_user
                source_connection w
              = (Raise (NotFoundException "Source integration credential not found"), w))
        as ->.
      { unfold _create_other_auth_source. rewrite Hid. unfold bind. by rewrite Hget. }
      by rewrite logged_nil.
  - exists []. split; [by left|].
    assert (_create_other_auth_source env source_model source_class current_user
                source_connection w
            = (Raise (NotFoundException
                        "Source connection has no integration credential"), w))
      as ->.
    { unfold _create_other_auth_source. by rewrite Hid. }
    by rewrite logged_nil.
Qed.

(** For every auth type but the two refresh types, source creation calls
    [decrypt] at most once and then the constructor of the source class,
    which it calls exactly when it returns the instance; it never calls
    the token endpoint and never writes the database. *)
Theorem unrefreshed_source_creation_calls (w : World) (sync : Sync.t)
    (current_user : User.t) (source_connection : Connection.t)
    (source_model : Source.t) (source_class : ClassRef) :
  resolves env w sync current_user source_connection source_model source_class →
  Source.auth_type source_model ∈ unrefreshed_auth_types →
  decrypts_then_constructs source_class w
    (_create_source_instance env sync current_user w).
Proof.
  intros Hres Hauth.
  rewrite (create_source_instance_dispatch env _ _ _ _ _ _ Hres).
  unfold unrefreshed_auth_types, other_auth_types in Hauth.
  rewrite !elem_of_cons in Hauth.
  destruct Hauth as [H|[H|[H|[H|[H|[H|[H|H]]]]]]];
    [..|by apply elem_of_nil in H]; rewrite H; decide_auth_type;
    [|apply create_oauth2_source_calls|apply create_other_auth_source_calls..].
  exists []. split; [by left|]. done.
Qed.

(** *** The transformers *)

Lemma get_transformer_Ok (transformer : Transformer.t) (callable : ClassRef) :
  get_transformer (modules env) transformer = Ok callable →
  callable = {| ref_module := Transformer.module_name transformer;
                ref_name := Transformer.method_name transformer |}.
Proof.
  unfold get_transformer, locate, import_module, getattr.
  destruct (modules env !! _); [|done]. case_bool_decide; [|done]. by intros [= <-].
Qed.

Definition callable_of (transformer : Transformer.t) : string * ClassRef :=
  (Transformer.method_name transformer,
   {| ref_module := Transformer.module_name transformer;
      ref_name := Transformer.method_name transformer |}).

Lemma transformer_callables_run (w : World) (transformers : gmap string ClassRef)
    (registered : list Transformer.t) :
  Forall (λ t, is_Ok (get_transformer (modules env) t)) registered →
  transformer_callables env transformers registered w
  = (Ok (insert_all transformers (callable_of <$> registered)), w).
Proof.
  revert transformers. induction registered as [|t registered IH]; simpl;
    intros transformers Hok; [done|].
  apply Forall_cons in Hok as [Ht Hok]. unfold bind, lift.
  destruct (get_transformer (modules env) t) as [callable|e] eqn:Hget; [|done].
  apply get_transformer_Ok in Hget as ->. by apply IH.
Qed.

Lemma transformer_callables_first_raise (w : World) (transformers : gmap string ClassRef)
    (before after : list Transformer.t) (transformer : Transformer.t) (e : PyError) :
  Forall (λ t, is_Ok (get_transformer (modules env) t)) before →
  get_transformer (modules env) transformer = Raise e →
  transformer_callables env transformers (before ++ transformer :: after) w
  = (Raise e, w).
Proof.
  revert transformers. induction before as [|t before IH]; simpl;
    intros transformers Hok Hraise; unfold bind, lift.
  - by rewrite Hraise.
  - apply Forall_cons in Hok as [Ht Hok].
    destruct (get_transformer (modules env) t) as [callable|e0]; [|done]. by apply IH.
Qed.

Lemma insert_all_is_Some {V} (d : gmap string V) (l : list (string * V)) (k : string) :
  is_Some (insert_all d l !! k) ↔ is_Some (d !! k) ∨ k ∈ l.*1.
Proof.
  revert d. induction l as [|[k' v'] l IH]; simpl; intros d.
  - rewrite elem_of_nil. naive_solver.
  - change (is_Some (insert_all (<[k' := v']> d) l !! k)
            ↔ is_Some (d !! k) ∨ k ∈ k' :: l.*1).
    rewrite IH, elem_of_cons, lookup_insert_is_Some. destruct (decide (k' = k)); naive_solver.
Qed.

(** The transformers are keyed by their method name alone: when every
    registered transformer can be imported, the dict has the method names
    of the registered transformers as its keys, and of several
    transformers with one method name, from whatever modules, the one
    registered last is the callable under the name. *)
Theorem transformers_are_keyed_by_method_name (w : World) (sync : Sync.t)
    (before after : list Transformer.t) (transformer : Transformer.t) :
  transformers (db w) = (before ++ transformer :: after)%list →
  Forall (λ t, is_Ok (get_transformer (modules env) t)) (transformers (db w)) →
  Transformer.method_name transformer ∉ Transformer.method_name <$> after →
  ∃ callables,
    _get_transformer_callables env sync w = (Ok callables, w)
    ∧ callables !! Transformer.method_name transformer
      = Some {| ref_module := Transformer.module_name transformer;
                ref_name := Transformer.method_name transformer |}
    ∧ ∀ name, is_Some (callables !! name)
              ↔ name ∈ Transformer.method_name <$> transformers (db w).
Proof.
  intros Hreg Hok Hlast. eexists. split; [|split].
  - unfold _get_transformer_callables, bind, crud.transformer_get_all, read_db, ret.
    by apply transformer_callables_run.
  - rewrite Hreg, fmap_app, fmap_cons. apply insert_all_lookup_last.
    by rewrite <- list_fmap_compose.
  - intros name. rewrite insert_all_is_Some, lookup_empty, <- list_fmap_compose.
    split; [intros [[? [=]]|H]; exact H|by right].
Qed.

(** The first registered transformer that cannot be imported ends
    [_get_transformer_callables] with the error of the locator; the
    transformers after it are not looked at. *)
Theorem first_missing_transformer_raises (w : World) (sync : Sync.t)
    (before after : list Transformer.t) (transformer : Transformer.t) (e : PyError) :
  transformers (db w) = (before ++ transformer :: after)%list →
  Forall (λ t, is_Ok (get_transformer (modules env) t)) before →
  get_transformer (modules env) transformer = Raise e →
  _get_transformer_callables env sync w = (Raise e, w).
Proof.
  intros Hreg Hok Hraise.
  unfold _get_transformer_callables, bind, crud.transformer_get_all, read_db, ret.
  simpl. rewrite Hreg. by apply transformer_callables_first_raise.
Qed.

(** *** [create] on the class as written *)

(** [SyncContextFactory.create] never returns a context.  It raises what
    source creation raises, else what the transformers raise, and when
    both return it raises [AttributeError] for [_get_entity_map], in the
    session in which the source has been constructed. *)
Theorem create_on_the_factory_always_raises (sync : Sync.t) (sync_job : SyncJob.t)
    (dag : SyncDagDefinition.t) (current_user : User.t)
    (white_label : option WhiteLabel.t) (w : World) :
  create env SyncContextFactory sync sync_job dag current_user white_label w
  = match _create_source_instance env sync current_user w with
    | (Raise e, w1) => (Raise e, w1)
    | (Ok _, w1) =>
        match _get_transformer_callables env sync w1 with
        | (Raise e, w2) => (Raise e, w2)
        | (Ok _, w2) =>
            (Raise (AttributeError
                      "type object 'SyncContextFactory' has no attribute '_get_entity_map'"),
             w2)
        end
    end.
Proof.
  unfold create, bind.
  destruct (_create_source_instance _ _ _ _) as [[source|e] w1]; [|done].
  assert (_create_destination_instance sync (_get_embedding_model sync) w1
          = (Ok (WeaviateDestination (Sync.id sync) (_get_embedding_model sync)), w1))
    as ->.
  { unfold _create_destination_instance. by destruct (Sync.destination_connection_id sync). }
  by destruct (_get_transformer_callables _ _ _) as [[transformers|e] w2].
Qed.

End FactoryCalls.

(** ** The further properties, run *)

Lemma load_settings_merges_into_the_catalog_witness :
  (<["hubspot" := Scenario.hubspot_settings]>
     ({["stripe" := Scenario.hubspot_settings]} : gmap string BaseAuthSettings))
    !! "stripe"
  = ({["stripe" := Scenario.hubspot_settings]} : gmap string BaseAuthSettings) !! "stripe".
Proof.
  refine (proj2 (load_settings_merges_into_the_catalog Scenario.required_fields
                   Scenario.catalog_hubspot {["stripe" := Scenario.hubspot_settings]}
                   _ _ "stripe") _).
  - vm_compute. reflexivity.
  - apply (bool_decide_unpack _). vm_compute. exact I.
Defined.

Lemma catalog_answers_for_the_names_of_the_document_witness :
  get_by_short_name {["hubspot" := Scenario.hubspot_settings]} "stripe"
  = Raise (KeyError "Integration settings not found for stripe").
Proof.
  refine (proj2 (catalog_answers_for_the_names_of_the_document Scenario.required_fields
                   Scenario.catalog_hubspot _ _ "stripe") _).
  - vm_compute. reflexivity.
  - apply (bool_decide_unpack _). vm_compute. exact I.
Defined.

Lemma failed_load_keeps_the_entries_before_the_failure_witness :
  ∃ stripe,
    load_settings Scenario.required_fields ∅ Scenario2.catalog_incomplete
    = ({["stripe" := stripe]}, Raise (ValidationError ["client_secret"])).
Proof.
  eexists.
  refine (proj1 (failed_load_keeps_the_entries_before_the_failure
                   Scenario.required_fields ∅ _
                   [("stripe", construct_fields [("auth_type", VStr "api_key")])]
                   [("slack", construct_fields [("auth_type", VStr "api_key")])]
                   "hubspot"
                   (construct_fields [("auth_type", VStr "oauth2"); ("url", VStr "u");
                                      ("client_id", VStr "c")])
                   (ValidationError ["client_secret"]) _ _ []));
    vm_compute; reflexivity.
Defined.

Lemma parsed_strategy_carries_the_catalog_key_witness :
  ∃ strategy,
    (safe_load_integrations Scenario2.catalog_renamed).*2
    = [{["auth_type" := VStr "api_key"; "integration_short_name" := VStr "paypal"]}]
    ∧ IntegrationSettings Scenario.required_fields Scenario2.catalog_renamed
      = Ok {["stripe" := strategy]}
    ∧ settings_fields strategy !! "integration_short_name" = Some (VStr "stripe").
Proof.
  eexists. split; [vm_compute; reflexivity|]. split; [vm_compute; reflexivity|].
  refine (proj1 (parsed_strategy_carries_the_catalog_key Scenario.required_fields
                   "stripe"
                   {["auth_type" := VStr "api_key";
                     "integration_short_name" := VStr "paypal"]} _ _)).
  vm_compute. reflexivity.
Defined.

Lemma incomplete_entry_raises_ValidationError_witness :
  ∃ missing,
    _parse_integration Scenario.required_fields "hubspot"
      {["auth_type" := VStr "oauth2"; "url" := VStr "u"; "client_id" := VStr "c"]}
    = Raise (ValidationError missing)
    ∧ "client_secret" ∈ missing.
Proof.
  destruct (incomplete_entry_raises_ValidationError Scenario.required_fields "hubspot"
              {["auth_type" := VStr "oauth2"; "url" := VStr "u"; "client_id" := VStr "c"]}
              AuthType.oauth2 OAuth2Settings "client_secret")
    as (missing & Hraise & Hin & _).
  - vm_compute. reflexivity.
  - reflexivity.
  - apply (bool_decide_unpack _). vm_compute. exact I.
  - discriminate.
  - vm_compute. reflexivity.
  - by exists missing.
Defined.

Lemma unhashable_auth_type_raises_TypeError_witness :
  _parse_integration Scenario.required_fields "hubspot"
    {["auth_type" := VList [VStr "oauth2"; VStr "api_key"]]}
  = Raise (TypeError "unhashable type: 'list'").
Proof.
  refine (proj1 (unhashable_auth_type_raises_TypeError Scenario.required_fields
                   "hubspot" _ (VList [VStr "oauth2"; VStr "api_key"]) _ _));
    vm_compute; reflexivity.
Defined.

Lemma source_creation_fails_before_any_call_witness :
  _create_source_instance Scenario2.modules_with_sources (Scenario.sync 77)
    Scenario.user Scenario2.start
  = (Raise (NotFoundException "Source connection not found"), Scenario2.start)
  ∧ _create_source_instance Scenario2.modules_with_sources (Scenario.sync 12)
      Scenario.user Scenario2.start
    = (Raise (NotFoundException "Source not found"), Scenario2.start)
  ∧ _create_source_instance Scenario2.modules_with_sources (Scenario.sync 10)
      Scenario.user Scenario2.start
    = (Raise (ModuleNotFoundError "airweave.platform.sources.ghost"), Scenario2.start).
Proof.
  split; [|split].
  - refine (proj1 (source_creation_fails_before_any_call Scenario2.modules_with_sources
                     Scenario2.start (Scenario.sync 77) Scenario.user) _).
    intros connection Hc. vm_compute in Hc. discriminate.
  - refine (proj1 (proj2 (source_creation_fails_before_any_call
                            Scenario2.modules_with_sources Scenario2.start
                            (Scenario.sync 12) Scenario.user)
                     (Scenario.connection 12 "zendesk" None) _ _) _); scenario.
  - refine (proj2 (proj2 (source_creation_fails_before_any_call
                            Scenario2.modules_with_sources Scenario2.start
                            (Scenario.sync 10) Scenario.user)
                     (Scenario.connection 10 "ghost" (Some 11%N)) _ _)
              (Scenario.source "ghost" "GhostSource" AuthType.api_key None) _ _ _);
      scenario.
Defined.

Lemma credential_is_required_for_every_other_auth_type_witness :
  _create_source_instance Scenario2.modules_with_sources (Scenario.sync 8)
    Scenario.user Scenario2.start
  = (Raise (NotFoundException "Source connection has no integration credential"),
     Scenario2.start)
  ∧ _create_source_instance Scenario2.modules_with_sources (Scenario.sync 11)
      Scenario.user Scenario2.start
    = (Raise (NotFoundException "Source integration credential not found"),
       Scenario2.start).
Proof.
  split.
  - refine (proj1 (credential_is_required_for_every_other_auth_type
                     Scenario2.modules_with_sources Scenario2.start (Scenario.sync 8)
                     Scenario.user (Scenario.connection 8 "ctti" None)
                     (Scenario.source "ctti" "CTTISource" AuthType.native_functionality None)
                     _ _ _) _); scenario.
  - refine (proj2 (credential_is_required_for_every_other_auth_type
                     Scenario2.modules_with_sources Scenario2.start (Scenario.sync 11)
                     Scenario.user (Scenario.connection 11 "gmail" (Some 99%N))
                     (Scenario.source "gmail" "GmailSource" AuthType.oauth2 None)
                     _ _ _) 99%N _ _); scenario.
Defined.

Lemma auth_config_class_is_required_witness :
  _create_source_instance Scenario2.modules_with_sources (Scenario.sync 9)
    Scenario.user Scenario2.start
  = (Raise (ValueError "Auth config class required for auth type AuthType.api_key"),
     logged Scenario2.start [EvDecrypt "enc:gmail"]).
Proof.
  refine (auth_config_class_is_required Scenario2.modules_with_sources
            Scenario2.start (Scenario.sync 9) Scenario.user
            (Scenario.connection 9 "mailchimp" (Some 11%N))
            (Scenario.source "mailchimp" "MailchimpSource" AuthType.api_key None)
            _ (Scenario.credential "enc:gmail") _ _ _ _); scenario.
Defined.

Lemma unrefreshed_source_creation_calls_witness :
  decrypts_then_constructs
    {| ref_module := "airweave.platform.sources.gmail"; ref_name := "GmailSource" |}
    Scenario.start
    (_create_source_instance Scenario.platform (Scenario.sync 3) Scenario.user
       Scenario.start).
Proof.
  refine (unrefreshed_source_creation_calls Scenario.platform Scenario.start
            (Scenario.sync 3) Scenario.user
            (Scenario.connection 3 "gmail" (Some 11%N))
            (Scenario.source "gmail" "GmailSource" AuthType.oauth2 None) _ _ _);
    scenario.
Defined.

Lemma transformers_are_keyed_by_method_name_witness :
  ∃ callables,
    _get_transformer_callables Scenario2.platform (Scenario.sync 2)
      (Scenario2.with_transformers
         [Scenario2.chunk_of "airweave.platform.transformers.chunker";
          Scenario2.chunk_of "airweave.platform.transformers.splitter"])
    = (Ok callables,
       Scenario2.with_transformers
         [Scenario2.chunk_of "airweave.platform.transformers.chunker";
          Scenario2.chunk_of "airweave.platform.transformers.splitter"])
    ∧ callables !! "chunk"
      = Some {| ref_module := "airweave.platform.transformers.splitter";
                ref_name := "chunk" |}.
Proof.
  destruct (transformers_are_keyed_by_method_name Scenario2.platform
              (Scenario2.with_transformers
                 [Scenario2.chunk_of "airweave.platform.transformers.chunker";
                  Scenario2.chunk_of "airweave.platform.transformers.splitter"])
              (Scenario.sync 2)
              [Scenario2.chunk_of "airweave.platform.transformers.chunker"] []
              (Scenario2.chunk_of "airweave.platform.transformers.splitter"))
    as (callables & Hrun & Hlast & _).
  - reflexivity.
  - repeat constructor; vm_compute; exact I.
  - simpl. apply not_elem_of_nil.
  - by exists callables.
Defined.

Lemma first_missing_transformer_raises_witness :
  _get_transformer_callables Scenario2.platform (Scenario.sync 2)
    (Scenario2.with_transformers
       [Scenario2.chunk_of "airweave.platform.transformers.chunker";
        Scenario2.chunk_of "airweave.platform.transformers.nowhere";
        Scenario2.chunk_of "airweave.platform.transformers.splitter"])
  = (Raise (ModuleNotFoundError "airweave.platform.transformers.nowhere"),
     Scenario2.with_transformers
       [Scenario2.chunk_of "airweave.platform.transformers.chunker";
        Scenario2.chunk_of "airweave.platform.transformers.nowhere";
        Scenario2.chunk_of "airweave.platform.transformers.splitter"]).
Proof.
  refine (first_missing_transformer_raises Scenario2.platform _ (Scenario.sync 2)
            [Scenario2.chunk_of "airweave.platform.transformers.chunker"]
            [Scenario2.chunk_of "airweave.platform.transformers.splitter"]
            (Scenario2.chunk_of "airweave.platform.transformers.nowhere") _ _ _ _).
  - reflexivity.
  - repeat constructor; vm_compute; exact I.
  - vm_compute. reflexivity.
Defined.

(** The class as written constructs the source of scenario B and then
    raises. *)
Example create_on_the_factory_discards_the_source :
  create Scenario.platform SyncContextFactory (Scenario.sync 2) Scenario.sync_job
    Scenario.dag_valid Scenario.user None Scenario.start
  = (Raise (AttributeError
              "type object 'SyncContextFactory' has no attribute '_get_entity_map'"),
     logged Scenario.start
       [EvSourceCreate {| ref_module := "airweave.platform.sources.local_files";
                          ref_name := "LocalFilesSource" |} []]).
Proof. vm_compute. reflexivity. Qed.
